(** * The /predict request pipeline of the Taka note detection API

    A shallow embedding of [src/api.py]: the response models, the module
    globals [model] and [class_names], and the handler [predict] with its
    three guards, its [try] body and its [except Exception] clause.

    The pretrained-model library, the image library and the array library are
    external collaborators: they are the fields of the class [Collaborators].
    Python's [float] is IEEE binary64, which is Rocq's primitive [float]. *)

From Stdlib Require Import ZArith List String Ascii Bool Lia QArith Floats.
Import ListNotations.

Local Open Scope string_scope.
Local Open Scope list_scope.
Local Open Scope Z_scope.

(** ** Python values used by the handler *)

Module Py.

(** Exceptions that [except Exception as e] can catch inside the handler.
    [IndexError] is what list and array subscripts raise; everything the
    external libraries raise is an [OtherException] with its class name. *)
Inductive Exception : Type :=
| IndexError (msg : string)
| OtherException (cls msg : string).

(** [str(e)] *)
Definition str (e : Exception) : string :=
  match e with
  | IndexError msg => msg
  | OtherException _ msg => msg
  end.

(** [len(l)] *)
Definition len {A : Type} (l : list A) : Z := Z.of_nat (List.length l).

(** [l[k]] on a Python list: indices [0 .. len-1] count from the front,
    indices [-len .. -1] count from the back, anything else raises. *)
Definition getitem {A : Type} (l : list A) (k : Z) : Exception + A :=
  let i := if k <? 0 then k + len l else k in
  if (i <? 0) || (len l <=? i) then inl (IndexError "list index out of range")
  else match nth_error l (Z.to_nat i) with
       | Some a => inr a
       | None => inl (IndexError "list index out of range")
       end.

(** [a[i]] on a numpy array for a loop index [i] of [range(len(a))].  The
    message is numpy's without its numbers; the loop never meets it. *)
Definition array_get {A : Type} (a : list A) (i : nat) : Exception + A :=
  match nth_error a i with
  | Some x => inr x
  | None => inl (IndexError "index is out of bounds for axis 0")
  end.

(** [range(n)] *)
Definition range (n : nat) : list nat := seq 0 n.

(** Truth value of an [Optional[str]]: [None] and [''] are false. *)
Definition truthy (s : option string) : bool :=
  match s with
  | None => false
  | Some "" => false
  | Some _ => true
  end.

(** [s.startswith(p)]; only evaluated when [s] is truthy. *)
Definition startswith (s : option string) (p : string) : bool :=
  match s with
  | None => false
  | Some s' => String.prefix p s'
  end.

(** [lo <= x <= hi] on floats: both IEEE comparisons must hold. *)
Definition between (lo x hi : float) : bool :=
  PrimFloat.leb lo x && PrimFloat.leb x hi.

End Py.

(** ** Response models (lines 47-67) *)

Record BoundingBox : Type := mkBoundingBox
  { x1 : float; y1 : float; x2 : float; y2 : float }.

Record Detection : Type := mkDetection
  { class_name : string; confidence : float; bounding_box : BoundingBox }.

Record PredictionResponse : Type := mkPredictionResponse
  { success : bool;
    num_detections : Z;
    detections : list Detection;
    message : option string }.

(** [fastapi.HTTPException(status_code, detail)] *)
Record HTTPException : Type := mkHTTPException
  { status_code : Z; detail : string }.

Definition HTTP_400_BAD_REQUEST : Z := 400.
Definition HTTP_500_INTERNAL_SERVER_ERROR : Z := 500.
Definition HTTP_503_SERVICE_UNAVAILABLE : Z := 503.

(** The module global of line 43. *)
Definition class_names : list string :=
  ["100 tk"; "1000 tk"; "200 tk"; "500 tk"; "objects"].

(** ** What the engine returns

    [result.boxes] is an N x 6 tensor, one row
    [(x1, y1, x2, y2, conf, cls)] per detection; [xyxy], [conf] and [cls] are
    its column views and [len] is N.  The [cls] column holds class indices;
    the model carries the integer that [.astype(int)] makes of each. *)

Record BoxRow : Type := mkBoxRow
  { row_xyxy : float * float * float * float; row_conf : float; row_cls : Z }.

(** [v[0]] .. [v[3]] on a row of the [xyxy] view. *)
Definition at0 (v : float * float * float * float) : float :=
  let '(a, _, _, _) := v in a.
Definition at1 (v : float * float * float * float) : float :=
  let '(_, b, _, _) := v in b.
Definition at2 (v : float * float * float * float) : float :=
  let '(_, _, c, _) := v in c.
Definition at3 (v : float * float * float * float) : float :=
  let '(_, _, _, d) := v in d.

Definition Boxes : Type := list BoxRow.

Definition xyxy (b : Boxes) : list (float * float * float * float) :=
  map row_xyxy b.
Definition conf (b : Boxes) : list float := map row_conf b.
Definition cls (b : Boxes) : list Z := map row_cls b.

(** One element of the list [model.predict] returns; [boxes] may be [None]. *)
Record Result : Type := mkResult { boxes : option Boxes }.

(** The upload: [file.content_type] and the bytes [file.read()] gives. *)
Record UploadFile : Type := mkUploadFile
  { content_type : option string; contents : list Byte.byte }.

(** External calls, in the order the handler makes them. *)
Inductive Event : Type :=
| EvRead          (* await file.read() *)
| EvImageOpen     (* Image.open(io.BytesIO(contents)) *)
| EvArray         (* np.array(image) *)
| EvPredict (conf : float).   (* model.predict(source=..., conf=...) *)

(** ** Computations that may raise and that act on a state *)

Class Monad (M : Type -> Type) : Type :=
  { ret : forall {A : Type}, A -> M A;
    bind : forall {A B : Type}, M A -> (A -> M B) -> M B }.

Declare Scope py_scope.
Delimit Scope py_scope with py.
Notation "x <- c ;; k" := (bind c (fun x => k))
  (at level 100, c at next level, right associativity) : py_scope.
Local Open Scope py_scope.

(** Pure code that may raise: [E + A], the exception on the left. *)
#[global] Instance Monad_raises (E : Type) : Monad (sum E) :=
  { ret := fun A a => inr a;
    bind := fun A B c k => match c with inl e => inl e | inr a => k a end }.

(** Code of the handler: it reads and updates a state [S] and may raise. *)
Definition Handler (S E A : Type) : Type := S -> (E + A) * S.

#[global] Instance Monad_Handler (S E : Type) : Monad (Handler S E) :=
  { ret := fun A a s => (inr a, s);
    bind := fun A B c k s =>
      match c s with
      | (inl e, s') => (inl e, s')
      | (inr a, s') => k a s'
      end }.

(** [raise e] *)
Definition raise {S E A : Type} (e : E) : Handler S E A :=
  fun s => (inl e, s).

(** A pure step inside the handler. *)
Definition lift {S E A : Type} (r : E + A) : Handler S E A :=
  fun s => (r, s).

(** [try: body  except Exception as e: handler(e)] *)
Definition try_except {S E E' A : Type}
  (body : Handler S E A) (handler : E -> Handler S E' A) : Handler S E' A :=
  fun s =>
    match body s with
    | (inr a, s') => (inr a, s')
    | (inl e, s') => handler e s'
    end.

(** ** Extraction of the detections (lines 178-197) *)

(** The body of the [for] loop at index [i]: the keyword arguments of
    [Detection(...)] are evaluated in the order they are written, and
    [float(x)] of an array element is the same number. *)
Definition detection_at
  (boxes : list (float * float * float * float))
  (confidences : list float) (class_ids : list Z) (i : nat)
  : Py.Exception + Detection :=
  class_id <- Py.array_get class_ids i ;;
  name <- Py.getitem class_names class_id ;;
  c <- Py.array_get confidences i ;;
  b <- Py.array_get boxes i ;;
  ret {| class_name := name;
         confidence := c;
         bounding_box := {| x1 := at0 b; y1 := at1 b; x2 := at2 b; y2 := at3 b |} |}.

(** [for i in range(len(boxes)): ... detections.append(detection)], with
    the list [detections] built so far as accumulator. *)
Fixpoint for_range
  (boxes : list (float * float * float * float))
  (confidences : list float) (class_ids : list Z)
  (indices : list nat) (detections : list Detection)
  : Py.Exception + list Detection :=
  match indices with
  | [] => inr detections
  | i :: rest =>
      detection <- detection_at boxes confidences class_ids i ;;
      for_range boxes confidences class_ids rest (detections ++ [detection])
  end.

(** Lines 178-197: [detections = []] and the guarded loop. *)
Definition extract_detections (result : Result) : Py.Exception + list Detection :=
  match boxes result with
  | Some bs =>
      if 0 <? Py.len bs then
        let boxes := xyxy bs in
        let confidences := conf bs in
        let class_ids := cls bs in
        for_range boxes confidences class_ids (Py.range (List.length boxes)) []
      else inr []
  | None => inr []
  end.

(** The record one engine row stands for: its label looked up in
    [class_names], its score and its four corners.  The loop above is
    compared with mapping this function over the rows. *)
Definition to_detection (row : BoxRow) : Py.Exception + Detection :=
  name <- Py.getitem class_names (row_cls row) ;;
  ret {| class_name := name;
         confidence := row_conf row;
         bounding_box := {| x1 := at0 (row_xyxy row); y1 := at1 (row_xyxy row);
                            x2 := at2 (row_xyxy row); y2 := at3 (row_xyxy row) |} |}.

(** [f] over a list, left to right, stopping at the first exception. *)
Fixpoint map_raise {A B : Type} (f : A -> Py.Exception + B) (l : list A)
  : Py.Exception + list B :=
  match l with
  | [] => inr []
  | a :: l' => b <- f a ;; bs <- map_raise f l' ;; ret (b :: bs)
  end.

(** The rows of a result: none when [boxes] is [None]. *)
Definition rows (result : Result) : Boxes :=
  match boxes result with
  | Some bs => bs
  | None => []
  end.

(** ** The external collaborators

    [YOLO] is the loaded model object and [EngineState] whatever the engine
    keeps between calls; [PILImage] and [ndarray] are the decoded image and
    its pixel array. *)

Class Collaborators : Type :=
  { YOLO : Type;
    EngineState : Type;
    PILImage : Type;
    ndarray : Type;
    (** [Image.open(io.BytesIO(contents))] *)
    Image_open : list Byte.byte -> Py.Exception + PILImage;
    (** [np.array(image)] *)
    np_array : PILImage -> Py.Exception + ndarray;
    (** [model.predict(source=image_array, conf=confidence, save=False,
        verbose=False)]: it may raise and may change the engine's state. *)
    model_predict :
      YOLO -> ndarray -> float -> EngineState ->
      (Py.Exception + list Result) * EngineState }.

(** ** The service *)

Section Service.

Context {X : Collaborators}.

(** The process: the module global [model] (line 42), the engine's own
    state, and the external calls made so far. *)
Record World : Type := mkWorld
  { model : option YOLO; engine : EngineState; log : list Event }.

(** The world after further external calls. *)
Definition logged (w : World) (evs : list Event) : World :=
  {| model := model w; engine := engine w; log := log w ++ evs |}.

(** The world after a request that got as far as the engine call, which
    left the engine in state [st]. *)
Definition served (w : World) (confidence : float) (st : EngineState) : World :=
  {| model := model w; engine := st;
     log := log w ++ [EvRead; EvImageOpen; EvArray; EvPredict confidence] |}.

Definition emit {E : Type} (ev : Event) : Handler World E unit :=
  fun w => (inr tt, logged w [ev]).

(** [await file.read()] *)
Definition file_read {E : Type} (file : UploadFile)
  : Handler World E (list Byte.byte) :=
  _ <- emit EvRead ;; ret (contents file).

(** An external call that leaves the engine alone. *)
Definition call {A : Type} (ev : Event) (r : Py.Exception + A)
  : Handler World Py.Exception A :=
  _ <- emit ev ;; lift r.

(** The engine call. *)
Definition engine_predict (m : YOLO) (image_array : ndarray) (confidence : float)
  : Handler World Py.Exception (list Result) :=
  _ <- emit (EvPredict confidence) ;;
  fun w =>
    let (r, st) := model_predict m image_array confidence (engine w) in
    (r, {| model := model w; engine := st; log := log w |}).

(** The [try] block, lines 162-205. *)
Definition predict_try (m : YOLO) (file : UploadFile) (confidence : float)
  : Handler World Py.Exception PredictionResponse :=
  contents <- file_read file ;;
  image <- call EvImageOpen (Image_open contents) ;;
  image_array <- call EvArray (np_array image) ;;
  results <- engine_predict m image_array confidence ;;
  result <- lift (Py.getitem results 0) ;;
  detections <- lift (extract_detections result) ;;
  ret {| success := true;
         num_detections := Py.len detections;
         detections := detections;
         message := Some "Detection completed successfully" |}.

(** The [except Exception as e] clause, lines 207-212. *)
Definition predict_except (e : Py.Exception)
  : Handler World HTTPException PredictionResponse :=
  raise {| status_code := HTTP_500_INTERNAL_SERVER_ERROR;
           detail := String.append "Error processing image: " (Py.str e) |}.

(** [predict], lines 126-212. *)
Definition predict (file : UploadFile) (confidence : float)
  : Handler World HTTPException PredictionResponse :=
  fun w =>
    match model w with
    | None =>
        raise {| status_code := HTTP_503_SERVICE_UNAVAILABLE;
                 detail := "Model not loaded. Please ensure model weights are available." |} w
    | Some m =>
        if negb (Py.truthy (content_type file))
           || negb (Py.startswith (content_type file) "image/")
        then
          raise {| status_code := HTTP_400_BAD_REQUEST;
                   detail := "Invalid file type. Please upload an image file (JPEG/PNG)" |} w
        else if negb (Py.between 0 confidence 1)
        then
          raise {| status_code := HTTP_400_BAD_REQUEST;
                   detail := "Confidence threshold must be between 0.0 and 1.0" |} w
        else
          try_except (predict_try m file confidence) predict_except w
    end.

(** What the client sees of a call of the handler: the framework answers
    200 with the response model, or the exception's status code with its
    detail.  A request the framework cannot bind to the handler's
    parameters never reaches the handler and is not part of this model. *)
Inductive Body : Type :=
| JsonPrediction (r : PredictionResponse)
| JsonDetail (d : string).

Record Response : Type := mkResponse { status : Z; body : Body }.

Definition respond (r : HTTPException + PredictionResponse) : Response :=
  match r with
  | inr p => {| status := 200; body := JsonPrediction p |}
  | inl e => {| status := status_code e; body := JsonDetail (detail e) |}
  end.

(** [POST /predict] for a request bound to [file] and [confidence]. *)
Definition post_predict (file : UploadFile) (confidence : float) (w : World)
  : Response * World :=
  let (r, w') := predict file confidence w in (respond r, w').

(** The external calls one request makes: what it appends to the log. *)
Definition trace (file : UploadFile) (confidence : float) (w : World)
  : list Event :=
  skipn (List.length (log w)) (log (snd (predict file confidence w))).

End Service.

(** ** What a well-formed request is

    The content type declares an image media type: it is present and starts
    with the prefix of the image family. *)

Definition declares_image (ct : option string) : Prop :=
  exists s, ct = Some s /\ String.prefix "image/" s = true.

(** The upload's bytes fail to decode with exception [e]: opening the image
    raises, or turning the opened image into a pixel array does. *)
Definition decode_fails {X : Collaborators} (file : UploadFile) (e : Py.Exception)
  : Prop :=
  Image_open (contents file) = inl e
  \/ exists image, Image_open (contents file) = inr image /\ np_array image = inl e.

(** ** The value of a threshold

    A binary64 number is zero, infinite, not a number, or [+-m * 2^e]; the
    finite ones are rationals, and [0.0 <= t <= 1.0] is meant of that value. *)

Definition SF2Q (x : spec_float) : option Q :=
  match x with
  | S754_zero _ => Some 0%Q
  | S754_finite s m e =>
      let mag := if 0 <=? e then inject_Z (Zpos m * 2 ^ e)
                 else Qmake (Zpos m) (Z.to_pos (2 ^ (- e))) in
      Some (if s then Qopp mag else mag)
  | _ => None
  end.

Definition float_value (t : float) : option Q := SF2Q (Prim2SF t).

(** [t] is a number and [0 <= t <= 1]. *)
Definition in_unit_interval (t : float) : Prop :=
  exists q, float_value t = Some q /\ (0 <= q)%Q /\ (q <= 1)%Q.

(** The engine is deterministic: what it returns does not depend on the
    state earlier calls left behind. *)
Definition deterministic_engine (X : Collaborators) : Prop :=
  forall (m : YOLO) (a : ndarray) (c : float) (st st' : EngineState),
    fst (model_predict m a c st) = fst (model_predict m a c st').

(** ** A small engine for the examples

    The pixel array is the upload's bytes.  Its first byte selects what the
    engine does; every further byte [b] is one detection of class id
    [b - 8] with score 0.5, kept when the score reaches the threshold.  The
    engine counts its calls. *)

Module Toy.

Definition row_of (b : Byte.byte) : BoxRow :=
  {| row_xyxy := (1, 2, 3, 4)%float;
     row_conf := 0.5%float;
     row_cls := Z.of_N (Byte.to_N b) - 8 |}.

Definition infer (_ : unit) (a : list Byte.byte) (c : float) (calls : nat)
  : (Py.Exception + list Result) * nat :=
  (match a with
   | [] => inl (Py.OtherException "RuntimeError" "empty source")
   | Byte.x00 :: _ => inl (Py.OtherException "RuntimeError" "engine failure")
   | Byte.x01 :: _ => inr []
   | Byte.x02 :: _ => inr [ {| boxes := None |} ]
   | _ :: bs =>
       inr [ {| boxes := Some (filter (fun r => PrimFloat.leb c (row_conf r))
                                      (map row_of bs)) |} ]
   end, S calls).

Definition open (bs : list Byte.byte) : Py.Exception + list Byte.byte :=
  match bs with
  | [] => inl (Py.OtherException "UnidentifiedImageError"
                                 "cannot identify image file")
  | _ => inr bs
  end.

#[export] Instance collaborators : Collaborators :=
  {| YOLO := unit;
     EngineState := nat;
     PILImage := list Byte.byte;
     ndarray := list Byte.byte;
     Image_open := open;
     np_array := fun img => inr img;
     model_predict := infer |}.

Definition loaded : World := {| model := Some tt; engine := 0%nat; log := [] |}.
Definition unloaded : World := {| model := None; engine := 0%nat; log := [] |}.

Definition jpeg (bs : list Byte.byte) : UploadFile :=
  {| content_type := Some "image/jpeg"; contents := bs |}.
Definition text (bs : list Byte.byte) : UploadFile :=
  {| content_type := Some "text/plain"; contents := bs |}.

End Toy.

(** * The rest of the service and the scripts around it *)

From Stdlib Require Import DecimalString.

(** ** Python objects built from literals

    The dicts and lists the routes and the scripts build; a dict keeps its
    items in insertion order. *)

#[warnings="-register-all"]
Inductive Value : Type :=
| VStr (s : string)
| VInt (n : Z)
| VFloat (x : float)
| VList (l : list Value)
| VDict (items : list (string * Value)).

(** [d[k]] read as an option: [None] where Python raises [KeyError]. *)
Fixpoint items_get (items : list (string * Value)) (k : string) : option Value :=
  match items with
  | [] => None
  | (k', v) :: rest => if String.eqb k' k then Some v else items_get rest k
  end.

Definition subscript (d : Value) (k : string) : option Value :=
  match d with
  | VDict items => items_get items k
  | _ => None
  end.

(** The class an exception is an instance of, and [isinstance(e,
    FileNotFoundError)], which is what [except FileNotFoundError] tests. *)
Definition exception_class (e : Py.Exception) : string :=
  match e with
  | Py.IndexError _ => "IndexError"
  | Py.OtherException cls _ => cls
  end.

Definition FileNotFoundError (msg : string) : Py.Exception :=
  Py.OtherException "FileNotFoundError" msg.

Definition is_FileNotFoundError (e : Py.Exception) : bool :=
  String.eqb (exception_class e) "FileNotFoundError".

(** The line feed of ["\n"]. *)
Definition LF : string := String (Ascii.ascii_of_nat 10) "".

(** [s * n] on a string. *)
Fixpoint str_mul (s : string) (n : nat) : string :=
  match n with
  | O => ""
  | S n' => String.append s (str_mul s n')
  end.

(** ** The host: files and the model constructor *)

Class Filesystem : Type :=
  { (** [os.path.exists(path)] *)
    path_exists : string -> bool;
    (** [os.path.isdir(path)] *)
    path_isdir : string -> bool;
    (** [os.listdir(path)]: the names in a directory, or the [OSError] it
        raises (also on a directory that exists, when it cannot be read). *)
    listdir : string -> Py.Exception + list string }.

Class Constructor (X : Collaborators) : Type :=
  { (** [YOLO(model_path)]: it may raise and may change the engine's state. *)
    YOLO_new : string -> EngineState -> (Py.Exception + YOLO) * EngineState;
    (** [model.predict(source=image_path, conf=confidence_threshold,
        save=False)], the call of inference.py on a path. *)
    model_predict_path :
      YOLO -> string -> float -> EngineState ->
      (Py.Exception + list Result) * EngineState }.

(** The message both loaders raise when the weights are missing
    (api.py lines 80-83, inference.py lines 35-38). *)
Definition weights_not_found (model_path : string) : string :=
  String.concat ""
    [ "Model weights not found at "; model_path; ". ";
      "Please ensure the trained model weights are placed in the models/ directory." ].

(** ** api.py: loading the model, startup, the informational routes *)

Section Startup.

Context {X : Collaborators} {F : Filesystem} {K : Constructor X}.

(** The server process: the world of the handler and what was printed. *)
Record Process : Type := mkProcess { world : World; stdout : list string }.

(** [print(line)] *)
Definition print {E : Type} (line : string) : Handler Process E unit :=
  fun p => (inr tt, {| world := world p; stdout := stdout p ++ [line] |}).

(** The call [YOLO(model_path)]. *)
Definition construct (model_path : string) : Handler Process Py.Exception YOLO :=
  fun p =>
    let (r, st) := YOLO_new model_path (engine (world p)) in
    (r, {| world := {| model := model (world p); engine := st;
                       log := log (world p) |};
           stdout := stdout p |}).

(** The assignment to the global [model]. *)
Definition assign_model {E : Type} (m : YOLO) : Handler Process E unit :=
  fun p =>
    (inr tt, {| world := {| model := Some m; engine := engine (world p);
                            log := log (world p) |};
                stdout := stdout p |}).

(** [load_model], lines 70-87. *)
Definition load_model (model_path : string) : Handler Process Py.Exception unit :=
  fun p =>
    if negb (path_exists model_path) then
      raise (FileNotFoundError (weights_not_found model_path)) p
    else
      (_ <- print (String.concat "" ["Loading model from "; model_path; "..."]) ;;
       m <- construct model_path ;;
       _ <- assign_model m ;;
       print "Model loaded successfully!") p.

(** The default of [model_path]. *)
Definition default_model_path : string := "models/best.pt".

(** [startup_event], lines 90-97: only [FileNotFoundError] is caught. *)
Definition startup_event : Handler Process Py.Exception unit :=
  try_except (load_model default_model_path)
    (fun e =>
       if is_FileNotFoundError e then
         _ <- print (String.append "Warning: " (Py.str e)) ;;
         print "API will start but /predict endpoint will return errors until model is available."
       else raise e).

(** [root], lines 100-112. *)
Definition root : Value :=
  VDict
    [ ("message", VStr "Bangladeshi Taka Note Detection API");
      ("version", VStr "1.0.0");
      ("task", VStr "Task 2: REST API Development");
      ("endpoints",
        VDict [ ("/predict", VStr "POST - Upload an image for detection");
                ("/health", VStr "GET - Check API health status");
                ("/docs", VStr "GET - API documentation (Swagger UI)") ]) ].

(** [health_check], lines 115-122: it reads the global [model]. *)
Definition health_check (w : World) : Value :=
  let model_status :=
    match model w with Some _ => "loaded" | None => "not loaded" end in
  VDict [ ("status", VStr "healthy"); ("model_status", VStr model_status) ].

End Startup.

(** ** inference.py: the detector class *)

(** The dict of a [Detection] model, its fields by name: what the API's
    response carries for one record (lines 47-59 of api.py). *)
Definition Detection_dict (d : Detection) : Value :=
  VDict
    [ ("class_name", VStr (class_name d));
      ("confidence", VFloat (confidence d));
      ("bounding_box",
        VDict [ ("x1", VFloat (x1 (bounding_box d)));
                ("y1", VFloat (y1 (bounding_box d)));
                ("x2", VFloat (x2 (bounding_box d)));
                ("y2", VFloat (y2 (bounding_box d))) ]) ].

(** The body of the loop of inference.py, lines 78-87, at index [i]. *)
Definition detector_detection_at
  (names : list string)
  (boxes : list (float * float * float * float))
  (confidences : list float) (class_ids : list Z) (i : nat)
  : Py.Exception + Value :=
  class_id <- Py.array_get class_ids i ;;
  name <- Py.getitem names class_id ;;
  c <- Py.array_get confidences i ;;
  b <- Py.array_get boxes i ;;
  ret (VDict
         [ ("class_name", VStr name);
           ("confidence", VFloat c);
           ("bounding_box",
             VDict [ ("x1", VFloat (at0 b)); ("y1", VFloat (at1 b));
                     ("x2", VFloat (at2 b)); ("y2", VFloat (at3 b)) ]) ]).

(** Lines 77-88 with the list [detections] built so far as accumulator. *)
Fixpoint detector_for_range
  (names : list string)
  (boxes : list (float * float * float * float))
  (confidences : list float) (class_ids : list Z)
  (indices : list nat) (detections : list Value)
  : Py.Exception + list Value :=
  match indices with
  | [] => inr detections
  | i :: rest =>
      detection <- detector_detection_at names boxes confidences class_ids i ;;
      detector_for_range names boxes confidences class_ids rest
                         (detections ++ [detection])
  end.

(** Lines 69-88. *)
Definition detector_extract (names : list string) (result : Result)
  : Py.Exception + list Value :=
  match boxes result with
  | Some bs =>
      if 0 <? Py.len bs then
        let boxes := xyxy bs in
        let confidences := conf bs in
        let class_ids := cls bs in
        detector_for_range names boxes confidences class_ids
                           (Py.range (List.length boxes)) []
      else inr []
  | None => inr []
  end.

Section Detector.

Context {X : Collaborators} {F : Filesystem} {K : Constructor X}.

(** The script's process: the engine's state, what was printed, and the
    engine calls made so far with their source and threshold. *)
Record Shell : Type := mkShell
  { sh_engine : EngineState;
    sh_stdout : list string;
    sh_calls : list (string * float) }.

(** An instance of [TakaNoteDetector]: [self.model], [self.class_names]. *)
Record TakaNoteDetector : Type := mkTakaNoteDetector
  { self_model : YOLO; self_class_names : list string }.

Definition sh_print {E : Type} (line : string) : Handler Shell E unit :=
  fun s => (inr tt, {| sh_engine := sh_engine s;
                       sh_stdout := sh_stdout s ++ [line];
                       sh_calls := sh_calls s |}).

Definition sh_construct (model_path : string) : Handler Shell Py.Exception YOLO :=
  fun s =>
    let (r, st) := YOLO_new model_path (sh_engine s) in
    (r, {| sh_engine := st; sh_stdout := sh_stdout s; sh_calls := sh_calls s |}).

Definition sh_predict (m : YOLO) (source : string) (confidence : float)
  : Handler Shell Py.Exception (list Result) :=
  fun s =>
    let (r, st) := model_predict_path m source confidence (sh_engine s) in
    (r, {| sh_engine := st; sh_stdout := sh_stdout s;
           sh_calls := sh_calls s ++ [(source, confidence)] |}).

(** [TakaNoteDetector.__init__], lines 27-45. *)
Definition TakaNoteDetector_init (model_path : string)
  : Handler Shell Py.Exception TakaNoteDetector :=
  fun s =>
    if negb (path_exists model_path) then
      raise (FileNotFoundError (weights_not_found model_path)) s
    else
      (_ <- sh_print (String.concat "" ["Loading model from "; model_path; "..."]) ;;
       m <- sh_construct model_path ;;
       _ <- sh_print "Model loaded successfully!" ;;
       ret {| self_model := m;
              self_class_names :=
                ["100 tk"; "1000 tk"; "200 tk"; "500 tk"; "objects"] |}) s.

(** [TakaNoteDetector.predict], lines 47-94. *)
Definition TakaNoteDetector_predict
  (self : TakaNoteDetector) (image_path : string) (confidence_threshold : float)
  : Handler Shell Py.Exception Value :=
  fun s =>
    if negb (path_exists image_path) then
      raise (FileNotFoundError (String.append "Image not found at " image_path)) s
    else
      (results <- sh_predict (self_model self) image_path confidence_threshold ;;
       result <- lift (Py.getitem results 0) ;;
       detections <- lift (detector_extract (self_class_names self) result) ;;
       ret (VDict [ ("image_path", VStr image_path);
                    ("num_detections", VInt (Py.len detections));
                    ("detections", VList detections) ])) s.

End Detector.

(** ** verify_setup.py *)

(** [str(n)] of an int. *)
Definition str_int (n : Z) : string := NilZero.string_of_int (Z.to_int n).

(** [c.lower()] on one character, and [s.lower()]: file names are strings of
    bytes here, and the letters A-Z are the ones that change. *)
Definition lower_ascii (c : ascii) : ascii :=
  let n := nat_of_ascii c in
  if (65 <=? n)%nat && (n <=? 90)%nat then ascii_of_nat (n + 32) else c.

Fixpoint lower (s : string) : string :=
  match s with
  | EmptyString => EmptyString
  | String c s' => String (lower_ascii c) (lower s')
  end.

(** [s.endswith(suffix)] and [s.endswith((suffix, ...))]. *)
Definition endswith (s suffix : string) : bool :=
  (String.length suffix <=? String.length s)%nat
  && String.eqb (String.substring (String.length s - String.length suffix)
                                  (String.length suffix) s) suffix.

Definition endswith_any (s : string) (suffixes : list string) : bool :=
  existsb (endswith s) suffixes.

(** The test of the comprehensions that pick the test images
    (verify_setup.py line 67, inference.py line 154, test_api.py lines 137
    and 171, test_currency_image.py line 14). *)
Definition is_image_name (f : string) : bool :=
  endswith_any (lower f) [".jpg"; ".jpeg"; ".png"].

Class Interpreter : Type :=
  { (** [import name] *)
    import_module : string -> Py.Exception + unit }.

(** [isinstance(e, ImportError)]: the class itself or its subclass
    [ModuleNotFoundError]. *)
Definition is_ImportError (e : Py.Exception) : bool :=
  String.eqb (exception_class e) "ImportError"
  || String.eqb (exception_class e) "ModuleNotFoundError".

Section VerifySetup.

Context {F : Filesystem} {I : Interpreter}.

(** A script that prints: the state is the lines printed so far. *)
Definition Script (A : Type) : Type := Handler (list string) Py.Exception A.

Definition say (line : string) : Script unit :=
  fun out => (inr tt, out ++ [line]).

(** [check_file_exists], lines 11-18. *)
Definition check_file_exists (filepath description : string) : Script bool :=
  if path_exists filepath then
    _ <- say (String.concat "" ["[OK] "; description; ": "; filepath]) ;;
    ret true
  else
    _ <- say (String.concat "" ["[MISSING] "; description; ": "; filepath]) ;;
    ret false.

(** [check_directory_exists], lines 21-29; listing the directory may
    raise, and nothing catches it. *)
Definition check_directory_exists (dirpath description : string) : Script bool :=
  if path_exists dirpath && path_isdir dirpath then
    files <- lift (listdir dirpath) ;;
    _ <- say (String.concat ""
                ["[OK] "; description; ": "; dirpath;
                 " ("; str_int (Py.len files); " items)"]) ;;
    ret true
  else
    _ <- say (String.concat "" ["[MISSING] "; description; ": "; dirpath]) ;;
    ret false.

(** One of the three [try: import ... except ImportError:] blocks of lines
    77-96; it gives the new value of [all_ok]. *)
Definition try_import (name : string) (all_ok : bool) : Script bool :=
  try_except
    (_ <- lift (import_module name) ;;
     _ <- say (String.concat "" ["[OK] "; name; " installed"]) ;;
     ret all_ok)
    (fun e =>
       if is_ImportError e then
         _ <- say (String.concat ""
                     ["[MISSING] "; name; " - Run: pip install -r requirements.txt"]) ;;
         ret false
       else raise e).

(** Lines 34-96 of [main]: the checks; they give [all_ok] and
    [model_exists]. *)
Definition main_checks : Script (bool * bool) :=
  _ <- say (str_mul "=" 70) ;;
  _ <- say "Project Setup Verification" ;;
  _ <- say (str_mul "=" 70) ;;
  let all_ok := true in
  _ <- say (String.append LF "1. Core Files:") ;;
  _ <- say (str_mul "-" 70) ;;
  b <- check_file_exists "inference.py" "Inference pipeline script" ;;
  let all_ok := all_ok && b in
  b <- check_file_exists "api.py" "REST API script" ;;
  let all_ok := all_ok && b in
  b <- check_file_exists "test_api.py" "API testing script" ;;
  let all_ok := all_ok && b in
  b <- check_file_exists "requirements.txt" "Dependencies file" ;;
  let all_ok := all_ok && b in
  b <- check_file_exists "Dockerfile" "Docker configuration" ;;
  let all_ok := all_ok && b in
  b <- check_file_exists "README.md" "Documentation" ;;
  let all_ok := all_ok && b in
  _ <- say (String.append LF "2. Model Weights:") ;;
  _ <- say (str_mul "-" 70) ;;
  model_exists <- check_file_exists "models/best.pt" "Trained model weights" ;;
  all_ok <- (if negb model_exists then
               _ <- say "  [WARNING] Model weights not found. Please copy best.pt to models/" ;;
               ret false
             else ret all_ok) ;;
  _ <- say (String.append LF "3. Dataset:") ;;
  _ <- say (str_mul "-" 70) ;;
  _ <- check_directory_exists "yolo" "Dataset directory" ;;
  _ <- check_file_exists "yolo/data.yaml" "Dataset configuration" ;;
  let test_images_dir := "yolo/test/images" in
  found <- check_directory_exists test_images_dir "Test images directory" ;;
  _ <- (if found then
          names <- lift (listdir test_images_dir) ;;
          let test_images := filter is_image_name names in
          _ <- say (String.concat ""
                      ["  Found "; str_int (Py.len test_images); " test images"]) ;;
          if 5 <=? Py.len test_images then
            say (String.concat ""
                   ["  [OK] Sufficient test images for Task 3 (";
                    str_int (Py.len test_images); " >= 5)"])
          else
            say (String.concat ""
                   ["  [WARNING] Only "; str_int (Py.len test_images);
                    " test images (need at least 5)"])
        else ret tt) ;;
  _ <- say (String.append LF "4. Python Packages:") ;;
  _ <- say (str_mul "-" 70) ;;
  all_ok <- try_import "ultralytics" all_ok ;;
  all_ok <- try_import "fastapi" all_ok ;;
  all_ok <- try_import "uvicorn" all_ok ;;
  ret (all_ok, model_exists).

(** Lines 98-112 of [main]: the summary. *)
Definition main_summary (all_ok model_exists : bool) : Script unit :=
  _ <- say (String.append LF (str_mul "=" 70)) ;;
  _ <- (if all_ok && model_exists then
          _ <- say "[SUCCESS] All components are ready!" ;;
          _ <- say (String.append LF "Next steps:") ;;
          _ <- say "  1. Test inference: python inference.py" ;;
          _ <- say "  2. Start API: python api.py" ;;
          _ <- say "  3. Test API: python test_api.py" ;;
          say "  4. Build Docker: docker build -t taka-note-detector:latest ."
        else
          _ <- say "[ACTION REQUIRED] Some components are missing." ;;
          _ <- (if negb model_exists then
                  say "  - Copy model weights to models/best.pt"
                else ret tt) ;;
          say "  - Install dependencies: pip install -r requirements.txt") ;;
  say (str_mul "=" 70).

(** [main], lines 32-112. *)
Definition verify_setup_main : Script unit :=
  r <- main_checks ;;
  main_summary (fst r) (snd r).

End VerifySetup.

(** ** The test scripts: picking the images and summing up *)

(** [l[:n]] *)
Definition slice_to {A : Type} (l : list A) (n : Z) : list A :=
  if n <? 0 then firstn (Z.to_nat (Py.len l + n)) l
  else firstn (Z.to_nat n) l.

(** test_api.py lines 174-175: the images [main] sends to the API. *)
Definition images_to_test (test_images : list string) : list string :=
  let num_images_to_test := Z.max 5 (Py.len test_images) in
  slice_to test_images num_images_to_test.

(** One entry of [test_results] (test_api.py lines 186-190); its detections
    are the records of the response it was read from. *)
Record TestResult : Type := mkTestResult
  { tr_image : string;
    tr_num_detections : Z;
    tr_detections : list Detection }.

(** [sum(l)] of ints: the additions from the left, starting at 0. *)
Definition sum_ints (l : list Z) : Z := fold_left Z.add l 0.

(** [sum(r['num_detections'] for r in test_results)], line 207. *)
Definition total_detections (test_results : list TestResult) : Z :=
  sum_ints (map tr_num_detections test_results).

(** A dict from class names to counts: [d.get(k, default)] and
    [d[k] = v], which keeps the place of a key already there and puts a new
    key last. *)
Fixpoint counts_get (d : list (string * Z)) (k : string) (default : Z) : Z :=
  match d with
  | [] => default
  | (k', v) :: rest => if String.eqb k' k then v else counts_get rest k default
  end.

Fixpoint counts_set (d : list (string * Z)) (k : string) (v : Z)
  : list (string * Z) :=
  match d with
  | [] => [(k, v)]
  | (k', v') :: rest =>
      if String.eqb k' k then (k', v) :: rest
      else (k', v') :: counts_set rest k v
  end.

(** The body of the inner loop, lines 217-219, on the pair
    [(class_counts, confidence_scores)]. *)
Definition tally_detection
  (acc : list (string * Z) * list float) (detection : Detection)
  : list (string * Z) * list float :=
  let (class_counts, confidence_scores) := acc in
  let class_name := class_name detection in
  (counts_set class_counts class_name (counts_get class_counts class_name 0 + 1),
   confidence_scores ++ [confidence detection]).

(** Lines 213-219: [class_counts] and [confidence_scores] after both loops. *)
Definition tally (test_results : list TestResult)
  : list (string * Z) * list float :=
  fold_left
    (fun acc result => fold_left tally_detection (tr_detections result) acc)
    test_results ([], []).

(** ** What verify_setup.py is checked against *)

(** A line that is none of the three lines only the summary prints. *)
Definition verdict_free (line : string) : Prop :=
  line <> "[SUCCESS] All components are ready!"
  /\ line <> "[ACTION REQUIRED] Some components are missing."
  /\ line <> "  - Copy model weights to models/best.pt".

(** A script appends lines that satisfy [P] to what was printed, and ends
    with an outcome that satisfies [Q]. *)
Definition script_spec {A : Type} (c : Script A)
  (P : string -> Prop) (Q : Py.Exception + A -> Prop) : Prop :=
  forall out, exists lines,
    snd (c out) = out ++ lines /\ Forall P lines /\ Q (fst (c out)).

(** The package imports. *)
Definition imports {I : Interpreter} (name : string) : Prop :=
  import_module name = inr tt.

(** Listing [d] does not raise if [d] is a directory that exists. *)
Definition listable {F : Filesystem} (d : string) : Prop :=
  path_exists d && path_isdir d = true -> exists files, listdir d = inr files.

(** Importing [name] succeeds or raises an ImportError. *)
Definition import_settles {I : Interpreter} (name : string) : Prop :=
  forall e, import_module name = inl e -> is_ImportError e = true.

(** Nothing the script does raises past it: the two dataset directories can
    be listed and every import succeeds or raises an ImportError. *)
Definition runs_to_end {F : Filesystem} {I : Interpreter} : Prop :=
  listable "yolo"
  /\ listable "yolo/test/images"
  /\ import_settles "ultralytics"
  /\ import_settles "fastapi"
  /\ import_settles "uvicorn".

(** The six core files and the weights exist and the three packages import. *)
Definition setup_ready {F : Filesystem} {I : Interpreter} : Prop :=
  path_exists "inference.py" = true
  /\ path_exists "api.py" = true
  /\ path_exists "test_api.py" = true
  /\ path_exists "requirements.txt" = true
  /\ path_exists "Dockerfile" = true
  /\ path_exists "README.md" = true
  /\ path_exists "models/best.pt" = true
  /\ imports "ultralytics" /\ imports "fastapi" /\ imports "uvicorn".

(** ** A small host for the examples

    The files that exist are listed; the constructor succeeds on every path
    but "models/corrupt.pt"; the image at a path is the bytes [images] gives
    for it, read by the small engine. *)

Module ToyHost.

#[local] Existing Instance Toy.collaborators.

Definition mem (p : string) (l : list string) : bool :=
  existsb (String.eqb p) l.

Definition fs (files dirs : list string)
  (entries : string -> Py.Exception + list string)
  : Filesystem :=
  {| path_exists := fun p => mem p files || mem p dirs;
     path_isdir := fun p => mem p dirs;
     listdir := entries |}.

Definition images (p : string) : list Byte.byte :=
  if String.eqb p "two.jpg" then [Byte.x03; Byte.x08; Byte.x0c]
  else if String.eqb p "beyond.jpg" then [Byte.x03; Byte.x08; Byte.x0d]
  else [Byte.x02].

Definition new (p : string) (calls : nat) : (Py.Exception + unit) * nat :=
  (if String.eqb p "models/corrupt.pt"
   then inl (Py.OtherException "RuntimeError" "invalid weights")
   else inr tt, calls).

(** A constructor that fails on every path. *)
Definition broken (p : string) (calls : nat) : (Py.Exception + unit) * nat :=
  (inl (Py.OtherException "RuntimeError" "invalid weights"), calls).

#[export] Instance constructor : Constructor Toy.collaborators :=
  Build_Constructor Toy.collaborators new
    (fun m p c st => Toy.infer m (images p) c st).

Definition broken_constructor : Constructor Toy.collaborators :=
  Build_Constructor Toy.collaborators broken
    (fun m p c st => Toy.infer m (images p) c st).

(** A host with the weights and two images, and one without anything. *)
Definition full : Filesystem :=
  fs ["models/best.pt"; "two.jpg"; "beyond.jpg"] [] (fun _ => inr []).
Definition bare : Filesystem := fs [] [] (fun _ => inr []).

Definition fresh : Process (X := Toy.collaborators) :=
  {| world := Toy.unloaded; stdout := [] |}.
Definition serving : Process (X := Toy.collaborators) :=
  {| world := Toy.loaded; stdout := [] |}.

Definition shell : Shell (X := Toy.collaborators) :=
  {| sh_engine := 0%nat; sh_stdout := []; sh_calls := [] |}.

Definition detector : TakaNoteDetector (X := Toy.collaborators) :=
  {| self_model := tt;
     self_class_names := ["100 tk"; "1000 tk"; "200 tk"; "500 tk"; "objects"] |}.




(** Two test results: a 100 tk and a 500 tk note, then another 100 tk. *)
Definition note (name : string) : Detection :=
  {| class_name := name; confidence := 0.5;
     bounding_box := {| x1 := 1; y1 := 2; x2 := 3; y2 := 4 |} |}.

Definition test_results : list TestResult :=
  [ {| tr_image := "a.jpg"; tr_num_detections := 2;
       tr_detections := [note "100 tk"; note "500 tk"] |};
    {| tr_image := "b.jpg"; tr_num_detections := 1;
       tr_detections := [note "100 tk"] |} ].

End ToyHost.

(** * Properties *)

(** ** Comparisons of binary64 numbers with 0 and 1 *)

Lemma digits2_pos_size (m : positive) : digits2_pos m = Pos.size m.
Proof. induction m; simpl; congruence. Qed.

Lemma digits2_upper (m : positive) : Zpos m < 2 ^ Zpos (digits2_pos m).
Proof.
  rewrite digits2_pos_size.
  pose proof (Pos.size_gt m) as H.
  apply Pos2Z.pos_lt_pos in H. rewrite Pos2Z.inj_pow in H. exact H.
Qed.

Lemma digits2_lower (m : positive) : 2 ^ (Zpos (digits2_pos m) - 1) <= Zpos m.
Proof.
  rewrite digits2_pos_size.
  pose proof (Pos.size_le m) as H.
  apply Pos2Z.pos_le_pos in H. rewrite Pos2Z.inj_pow in H.
  replace (Zpos (Pos.size m)) with (Z.succ (Zpos (Pos.size m) - 1)) in H by lia.
  rewrite Z.pow_succ_r in H by lia. lia.
Qed.


Lemma finite_le_one (m : positive) (e : Z) :
  valid_binary (S754_finite false m e) = true ->
  SFleb (S754_finite false m e) (S754_finite false 4503599627370496 (-52)) = true
  <-> (if 0 <=? e then Zpos m * 2 ^ e <= 1 else Zpos m <= 2 ^ (- e)).
Proof.
  unfold valid_binary, bounded, canonical_mantissa, fexp, SpecFloat.emin, SFleb, SFcompare.
  change prec with 53. change emax with 1024.
  intros Hv. apply andb_prop in Hv as [Hc _]. apply Z.eqb_eq in Hc.
  change (3 - 1024 - 53) with (-1074) in Hc.
  pose proof (digits2_upper m) as Hu. pose proof (digits2_lower m) as Hl.
  set (d := Zpos (digits2_pos m)) in *.
  assert (Hd : d + e - 53 <= e /\ (-1074 < e -> d + e - 53 = e)).
  { clear Hu Hl. change IntDef.Z.max with Z.max in Hc. lia. }
  clear Hc. destruct Hd as [Hd1 Hd2].
  destruct (Z.compare_spec e (-52)) as [He | He | He].
  - subst e. rewrite Pos.compare_cont_spec. simpl Pos.switch_Eq.
    change (0 <=? -52) with false. cbv iota.
    change (2 ^ (- (-52))) with 4503599627370496.
    destruct (Pos.compare_spec m 4503599627370496) as [H | H | H].
    + subst m. split; [intros _; apply Z.le_refl | reflexivity].
    + apply Pos2Z.pos_lt_pos in H. split; [intros _; apply Z.lt_le_incl; exact H | reflexivity].
    + apply Pos2Z.pos_lt_pos in H. split; [discriminate | intros H'; exfalso; apply (Z.lt_irrefl (Z.pos m)); eapply Z.le_lt_trans; eauto].
  - assert (Hd : d <= 53) by (clear - Hd1; lia).
    assert (Hm : Zpos m < 2 ^ 53).
    { eapply Z.lt_le_trans; [exact Hu|]. apply Z.pow_le_mono_r; [reflexivity | exact Hd]. }
    assert (E : (0 <=? e) = false) by (apply Z.leb_gt; clear - He; lia).
    rewrite E.
    split; [intros _|reflexivity].
    assert (Hp : 2 ^ 53 <= 2 ^ (- e)) by (apply Z.pow_le_mono_r; [reflexivity | clear - He; lia]).
    apply Z.lt_le_incl. eapply Z.lt_le_trans; eassumption.
  - assert (Hd : d = 53) by (clear - Hd2 He; lia).
    rewrite Hd in Hl. change (2 ^ (53 - 1)) with 4503599627370496 in Hl.
    split; [discriminate|].
    destruct (0 <=? e) eqn:E.
    + apply Z.leb_le in E.
      assert (Hp : 0 < 2 ^ e) by (apply Z.pow_pos_nonneg; [reflexivity | exact E]).
      clear - Hl Hp. nia.
    + apply Z.leb_gt in E. intros Hm.
      assert (Hp : 2 ^ (- e) <= 2 ^ 51) by (apply Z.pow_le_mono_r; [reflexivity | clear - He; lia]).
      change (2 ^ 51) with 2251799813685248 in Hp. clear - Hp Hl Hm. lia.
Qed.

Lemma Some_eq {A : Type} (a b : A) : Some a = Some b -> a = b.
Proof. intros H. injection H as H. exact H. Qed.

Lemma Qle_0_inject (z : Z) : (0 <= inject_Z z)%Q <-> 0 <= z.
Proof. unfold Qle, inject_Z, Qnum, Qden. lia. Qed.

Lemma Qle_inject_1 (z : Z) : (inject_Z z <= 1)%Q <-> z <= 1.
Proof. unfold Qle, inject_Z, Qnum, Qden. lia. Qed.

Lemma Qle_0_opp (q : Q) : (0 <= - q)%Q <-> Qnum q <= 0.
Proof. unfold Qle, Qopp, Qnum, Qden. destruct q. lia. Qed.

Lemma Qle_0_make (n : Z) (d : positive) : (0 <= n # d)%Q <-> 0 <= n.
Proof. unfold Qle, Qnum, Qden. lia. Qed.

Lemma Qle_make_1 (n : Z) (d : positive) : (n # d <= 1)%Q <-> n <= Zpos d.
Proof. unfold Qle, Qnum, Qden. lia. Qed.

Lemma between_0_1_spec (t : float) :
  Py.between 0 t 1 = true <-> in_unit_interval t.
Proof.
  unfold Py.between, in_unit_interval, float_value.
  rewrite !leb_spec.
  change (Prim2SF 0) with (S754_zero false).
  change (Prim2SF 1) with (S754_finite false 4503599627370496 (-52)).
  pose proof (Prim2SF_valid t) as Hv.
  destruct (Prim2SF t) as [s | s | | s m e].
  - split; [intros _ | reflexivity].
    exists 0%Q. repeat split; discriminate.
  - split; [destruct s; discriminate | intros (q & Hq & _); discriminate].
  - split; [discriminate | intros (q & Hq & _); discriminate].
  - destruct s.
    + split; [discriminate|].
      intros (q & Hq & H0 & _). exfalso. unfold SF2Q in Hq. apply Some_eq in Hq. subst q.
      apply (proj1 (Qle_0_opp _)) in H0. revert H0.
      destruct (0 <=? e) eqn:E.
      * apply Z.leb_le in E.
        assert (0 < 2 ^ e) by (apply Z.pow_pos_nonneg; [reflexivity | exact E]).
        unfold inject_Z, Qnum. nia.
      * unfold Qnum. lia.
    + rewrite andb_true_l. rewrite (finite_le_one m e Hv).
      unfold SF2Q.
      destruct (0 <=? e) eqn:E.
      * apply Z.leb_le in E.
        assert (0 < 2 ^ e) by (apply Z.pow_pos_nonneg; [reflexivity | exact E]).
        split.
        -- intros H1. eexists; split; [reflexivity|].
           rewrite Qle_0_inject, Qle_inject_1. split; [nia | exact H1].
        -- intros (q & Hq & _ & H1). apply Some_eq in Hq. subst q.
           apply (proj1 (Qle_inject_1 _)) in H1. exact H1.
      * apply Z.leb_gt in E.
        assert (Hp : 0 < 2 ^ (- e)) by (apply Z.pow_pos_nonneg; [reflexivity | lia]).
        split.
        -- intros H1. eexists; split; [reflexivity|].
           rewrite Qle_0_make, Qle_make_1, Z2Pos.id by exact Hp. split; [lia | exact H1].
        -- intros (q & Hq & _ & H1). apply Some_eq in Hq. subst q.
           apply (proj1 (Qle_make_1 _ _)) in H1. rewrite Z2Pos.id in H1 by exact Hp. exact H1.
Qed.

(** ** The label lookup *)

Lemma len_class_names : Py.len class_names = 5.
Proof. reflexivity. Qed.

(** A class id Python accepts as an index of the five labels: counted from
    the front or, when negative, from the back. *)
Lemma getitem_class_names_ok (c : Z) :
  -5 <= c < 5 ->
  exists name, Py.getitem class_names c = inr name
               /\ nth_error class_names (Z.to_nat (c mod 5)) = Some name.
Proof.
  intros Hc.
  assert (Hcases : c = -5 \/ c = -4 \/ c = -3 \/ c = -2 \/ c = -1 \/
                   c = 0 \/ c = 1 \/ c = 2 \/ c = 3 \/ c = 4) by lia.
  repeat (destruct Hcases as [-> | Hcases]); [ .. | subst c ];
    eexists; split; reflexivity.
Qed.

(** Any other class id makes the subscript raise. *)
Lemma getitem_class_names_raises (c : Z) :
  c < -5 \/ 5 <= c ->
  Py.getitem class_names c = inl (Py.IndexError "list index out of range").
Proof.
  intros Hc. unfold Py.getitem. rewrite len_class_names.
  destruct (c <? 0) eqn:Hneg.
  - apply Z.ltb_lt in Hneg.
    assert (H : (c + 5 <? 0) = true) by (apply Z.ltb_lt; lia).
    rewrite H. reflexivity.
  - apply Z.ltb_ge in Hneg.
    assert (H : (5 <=? c) = true) by (apply Z.leb_le; lia).
    rewrite H, orb_true_r. reflexivity.
Qed.

Lemma to_detection_raises (row : BoxRow) :
  row_cls row < -5 \/ 5 <= row_cls row ->
  to_detection row = inl (Py.IndexError "list index out of range").
Proof.
  intros Hc. unfold to_detection.
  rewrite (getitem_class_names_raises _ Hc). reflexivity.
Qed.

Lemma to_detection_error (row : BoxRow) (e : Py.Exception) :
  to_detection row = inl e -> e = Py.IndexError "list index out of range".
Proof.
  unfold to_detection.
  destruct (Z_lt_dec (row_cls row) (-5)) as [H | H];
    [ rewrite getitem_class_names_raises by lia; cbn; congruence | ].
  destruct (Z_le_dec 5 (row_cls row)) as [H' | H'];
    [ rewrite getitem_class_names_raises by lia; cbn; congruence | ].
  destruct (getitem_class_names_ok (row_cls row)) as (name & -> & _); [lia|].
  cbn. discriminate.
Qed.

(** ** Mapping with exceptions *)

Section MapRaise.

Context {A B : Type} (f : A -> Py.Exception + B).

Lemma map_raise_Forall2 (l : list A) (bs : list B) :
  map_raise f l = inr bs <-> Forall2 (fun a b => f a = inr b) l bs.
Proof.
  revert bs. induction l as [| a l IH]; intros bs; cbn [map_raise].
  - split.
    + intros H. injection H as <-. constructor.
    + intros H. inversion H. reflexivity.
  - cbn [bind Monad_raises ret]. split.
    + destruct (f a) as [e | b] eqn:Hfa; [discriminate|].
      destruct (map_raise f l) as [e | bs'] eqn:Hl; [discriminate|].
      intros H. injection H as <-.
      constructor; [exact Hfa | apply IH; reflexivity].
    + intros H. inversion H as [| a' b l' bs' Hfa Hrest]; subst.
      rewrite Hfa. apply IH in Hrest. rewrite Hrest. reflexivity.
Qed.

Lemma map_raise_length (l : list A) (bs : list B) :
  map_raise f l = inr bs -> List.length bs = List.length l.
Proof.
  intros H. apply map_raise_Forall2 in H.
  symmetry. eapply Forall2_length; eassumption.
Qed.

(** One element on which [f] raises makes the whole mapping raise, with
    the exception of the first such element. *)
Lemma map_raise_raises (l : list A) (a : A) (e : Py.Exception) :
  In a l -> f a = inl e -> exists e', map_raise f l = inl e'.
Proof.
  induction l as [| a0 l IH]; intros Hin Hfa; [contradiction|].
  cbn [map_raise bind Monad_raises].
  destruct (f a0) as [e0 | b0] eqn:Hfa0; [eexists; reflexivity|].
  destruct Hin as [-> | Hin]; [congruence|].
  destruct (IH Hin Hfa) as (e' & ->). eexists; reflexivity.
Qed.

Lemma map_raise_first_error (l : list A) (e : Py.Exception) :
  map_raise f l = inl e -> exists a, In a l /\ f a = inl e.
Proof.
  induction l as [| a0 l IH]; cbn [map_raise bind Monad_raises]; [discriminate|].
  destruct (f a0) as [e0 | b0] eqn:Hfa0.
  - intros H. injection H as <-. exists a0. split; [left; reflexivity | exact Hfa0].
  - destruct (map_raise f l) as [e1 | bs]; [|discriminate].
    intros H. injection H as <-.
    destruct (IH eq_refl) as (a & Hin & Hfa). exists a. split; [right; exact Hin | exact Hfa].
Qed.

End MapRaise.

(** ** The loop is the mapping of the rows, in their order *)

Lemma detection_at_row (pre : Boxes) (row : BoxRow) (post : Boxes) :
  detection_at (xyxy (pre ++ row :: post)) (conf (pre ++ row :: post))
               (cls (pre ++ row :: post)) (List.length pre)
  = to_detection row.
Proof.
  unfold detection_at, to_detection, Py.array_get, xyxy, conf, cls.
  rewrite !map_app. cbn [map].
  rewrite !nth_error_app2 by (rewrite length_map; apply Nat.le_refl).
  rewrite !length_map, Nat.sub_diag. cbn [nth_error bind Monad_raises].
  destruct (Py.getitem class_names (row_cls row)); reflexivity.
Qed.

Lemma for_range_rows (post pre : Boxes) (done : list Detection) :
  for_range (xyxy (pre ++ post)) (conf (pre ++ post)) (cls (pre ++ post))
            (seq (List.length pre) (List.length post)) done
  = (ds <- map_raise to_detection post ;; ret (done ++ ds)).
Proof.
  revert pre done. induction post as [| row post IH]; intros pre done.
  - cbn. rewrite app_nil_r. reflexivity.
  - cbn [List.length seq for_range map_raise].
    rewrite detection_at_row. cbn [bind Monad_raises ret].
    destruct (to_detection row) as [e | d]; [reflexivity|].
    replace (pre ++ row :: post) with ((pre ++ [row]) ++ post)
      by (rewrite <- app_assoc; reflexivity).
    replace (S (List.length pre)) with (List.length (pre ++ [row]))
      by (rewrite length_app; cbn; apply Nat.add_1_r).
    rewrite IH. cbn [bind Monad_raises ret].
    destruct (map_raise to_detection post) as [e | ds]; [reflexivity|].
    rewrite <- app_assoc. reflexivity.
Qed.

Lemma extract_detections_rows (result : Result) :
  extract_detections result = map_raise to_detection (rows result).
Proof.
  unfold extract_detections, rows.
  destruct (boxes result) as [[| row bs] |]; try reflexivity.
  replace (0 <? Py.len (row :: bs)) with true
    by (symmetry; apply Z.ltb_lt; unfold Py.len; cbn [List.length]; lia).
  unfold Py.range.
  replace (List.length (xyxy (row :: bs))) with (List.length (row :: bs))
    by (unfold xyxy; rewrite length_map; reflexivity).
  pose proof (for_range_rows (row :: bs) [] []) as H.
  cbn [app] in H. change (@List.length BoxRow []) with 0%nat in H. rewrite H. cbn [bind Monad_raises ret app].
  destruct (map_raise to_detection (row :: bs)); reflexivity.
Qed.

(** ** The handler, stage by stage *)

(** Case analysis on the two input guards of lines 148 and 155; [early]
    closes the goal of a request that a guard stops. *)
Ltac guards file c early :=
  destruct (negb (Py.truthy (content_type file))
            || negb (Py.startswith (content_type file) "image/"));
  [ early | destruct (negb (Py.between 0 c 1)); [ early | ] ].

Section Pipeline.

Context {X : Collaborators}.


Lemma logged_logged (w : World) (evs evs' : list Event) :
  logged (logged w evs) evs' = logged w (evs ++ evs').
Proof. unfold logged. cbn. rewrite <- app_assoc. reflexivity. Qed.

(** The [try] block as a case analysis on what the collaborators return. *)
Lemma predict_try_unfold (m : YOLO) (file : UploadFile) (c : float) (w : World) :
  predict_try m file c w =
  match Image_open (contents file) with
  | inl e => (inl e, logged w [EvRead; EvImageOpen])
  | inr image =>
      match np_array image with
      | inl e => (inl e, logged w [EvRead; EvImageOpen; EvArray])
      | inr image_array =>
          let (r, st) := model_predict m image_array c (engine w) in
          (match r with
           | inl e => inl e
           | inr results =>
               result <- Py.getitem results 0 ;;
               detections <- extract_detections result ;;
               ret {| success := true;
                      num_detections := Py.len detections;
                      detections := detections;
                      message := Some "Detection completed successfully" |}
           end, served w c st)
      end
  end.
Proof.
  unfold predict_try, file_read, call, engine_predict, emit, lift.
  cbn [bind Monad_Handler ret].
  destruct (Image_open (contents file)) as [e | image];
    [rewrite logged_logged; reflexivity|].
  destruct (np_array image) as [e | image_array];
    [rewrite !logged_logged; reflexivity|].
  rewrite !logged_logged. cbn [app engine logged model log].
  destruct (model_predict m image_array c (engine w)) as [[e | results] st];
    [reflexivity|].
  unfold served. cbn [bind Monad_raises ret].
  destruct (Py.getitem results 0) as [e | result]; [reflexivity|].
  destruct (extract_detections result) as [e | ds]; reflexivity.
Qed.

(** A request that passes the three guards runs the [try] block. *)
Lemma predict_guards_passed (m : YOLO) (file : UploadFile) (c : float) (w : World) :
  model w = Some m ->
  Py.truthy (content_type file) = true ->
  Py.startswith (content_type file) "image/" = true ->
  Py.between 0 c 1 = true ->
  predict file c w = try_except (predict_try m file c) predict_except w.
Proof.
  intros Hm Ht Hs Hb. unfold predict. rewrite Hm, Ht, Hs, Hb. reflexivity.
Qed.

(** Everything a successful call went through. *)
Lemma predict_ok_inv (file : UploadFile) (c : float) (w w' : World)
      (r : PredictionResponse) :
  predict file c w = (inr r, w') ->
  exists m image image_array results st result,
    model w = Some m
    /\ Py.truthy (content_type file) = true
    /\ Py.startswith (content_type file) "image/" = true
    /\ Py.between 0 c 1 = true
    /\ Image_open (contents file) = inr image
    /\ np_array image = inr image_array
    /\ model_predict m image_array c (engine w) = (inr results, st)
    /\ Py.getitem results 0 = inr result
    /\ map_raise to_detection (rows result) = inr (detections r)
    /\ r = {| success := true;
              num_detections := Py.len (detections r);
              detections := detections r;
              message := Some "Detection completed successfully" |}
    /\ w' = served w c st.
Proof.
  unfold predict.
  destruct (model w) as [m |] eqn:Hm; [| discriminate].
  destruct (Py.truthy (content_type file)) eqn:Ht; [| discriminate].
  destruct (Py.startswith (content_type file) "image/") eqn:Hs; [| discriminate].
  destruct (Py.between 0 c 1) eqn:Hb; [| discriminate].
  cbn [negb orb]. unfold try_except. rewrite predict_try_unfold.
  destruct (Image_open (contents file)) as [e | image] eqn:Hopen; [discriminate|].
  destruct (np_array image) as [e | image_array] eqn:Harr; [discriminate|].
  destruct (model_predict m image_array c (engine w)) as [[e | results] st] eqn:Hinfer;
    [discriminate|].
  cbn [bind Monad_raises ret].
  destruct (Py.getitem results 0) as [e | result] eqn:Hres; [discriminate|].
  rewrite extract_detections_rows.
  destruct (map_raise to_detection (rows result)) as [e | ds] eqn:Hds;
    [discriminate|].
  intros H. injection H as <- <-.
  exists m, image, image_array, results, st, result.
  cbn [detections]. repeat split; reflexivity || assumption.
Qed.

(** The model binding is never changed by a request. *)
Lemma predict_model (file : UploadFile) (c : float) (w : World) :
  model (snd (predict file c w)) = model w.
Proof.
  unfold predict.
  destruct (model w) as [m |] eqn:Hm; [| cbn; exact Hm].
  guards file c ltac:(cbn; exact Hm).
  unfold try_except. rewrite predict_try_unfold.
  destruct (Image_open (contents file)) as [e | image]; [cbn; exact Hm|].
  destruct (np_array image) as [e | image_array]; [cbn; exact Hm|].
  destruct (model_predict m image_array c (engine w)) as [[e | results] st];
    [cbn; exact Hm|].
  cbn [bind Monad_raises ret].
  destruct (Py.getitem results 0) as [e | result]; [cbn; exact Hm|].
  destruct (extract_detections result) as [e | ds]; cbn; exact Hm.
Qed.

Lemma skipn_length_app {A : Type} (l evs : list A) :
  skipn (List.length l) (l ++ evs) = evs.
Proof. induction l as [| a l IH]; [reflexivity | exact IH]. Qed.

(** The external calls of one request, by the stage it reaches. *)
Lemma trace_spec (file : UploadFile) (c : float) (w : World) :
  trace file c w =
  match model w with
  | None => []
  | Some m =>
      if negb (Py.truthy (content_type file))
         || negb (Py.startswith (content_type file) "image/") then []
      else if negb (Py.between 0 c 1) then []
      else match Image_open (contents file) with
           | inl _ => [EvRead; EvImageOpen]
           | inr image =>
               match np_array image with
               | inl _ => [EvRead; EvImageOpen; EvArray]
               | inr _ => [EvRead; EvImageOpen; EvArray; EvPredict c]
               end
           end
  end.
Proof.
  unfold trace, predict.
  destruct (model w) as [m |]; [| apply skipn_all].
  guards file c ltac:(apply skipn_all).
  unfold try_except. rewrite predict_try_unfold.
  destruct (Image_open (contents file)) as [e | image];
    [apply skipn_length_app|].
  destruct (np_array image) as [e | image_array];
    [apply skipn_length_app|].
  destruct (model_predict m image_array c (engine w)) as [[e | results] st];
    [apply skipn_length_app|].
  cbn [bind Monad_raises ret].
  destruct (Py.getitem results 0) as [e | result]; [apply skipn_length_app|].
  destruct (extract_detections result) as [e | ds]; apply skipn_length_app.
Qed.

Lemma declares_image_guard (ct : option string) :
  declares_image ct ->
  Py.truthy ct = true /\ Py.startswith ct "image/" = true.
Proof.
  intros (s0 & -> & Hp). split; [| exact Hp].
  destruct s0; [discriminate Hp | reflexivity].
Qed.


(** What the framework makes of a raised [HTTPException]. *)
Lemma post_predict_raise (file : UploadFile) (c : float) (w w' : World)
      (e : HTTPException) :
  predict file c w = (inl e, w') ->
  post_predict file c w =
    ({| status := status_code e; body := JsonDetail (detail e) |}, w').
Proof. intros H. unfold post_predict. rewrite H. reflexivity. Qed.

Lemma post_predict_return (file : UploadFile) (c : float) (w w' : World)
      (r : PredictionResponse) :
  predict file c w = (inr r, w') ->
  post_predict file c w = ({| status := 200; body := JsonPrediction r |}, w').
Proof. intros H. unfold post_predict. rewrite H. reflexivity. Qed.

(** Every raised [HTTPException] carries 503, 400 or 500. *)
Lemma predict_raise_status (file : UploadFile) (c : float) (w w' : World)
      (e : HTTPException) :
  predict file c w = (inl e, w') ->
  status_code e = 503 \/ status_code e = 400 \/ status_code e = 500.
Proof.
  unfold predict.
  destruct (model w) as [m |];
    [| intros H; injection H as <- _; left; reflexivity].
  guards file c ltac:(intros H; injection H as <- _; right; left; reflexivity).
  unfold try_except.
  destruct (predict_try m file c w) as [[e0 | r] w0]; [| discriminate].
  intros H. injection H as <- _. right; right; reflexivity.
Qed.

(** The engine raising is answered by the [except] clause. *)
Lemma engine_failure_500 (m : YOLO) (file : UploadFile) (c : float) (w : World)
      (image : PILImage) (image_array : ndarray)
      (e : Py.Exception) (st : EngineState) :
  model w = Some m ->
  declares_image (content_type file) ->
  Py.between 0 c 1 = true ->
  Image_open (contents file) = inr image ->
  np_array image = inr image_array ->
  model_predict m image_array c (engine w) = (inl e, st) ->
  post_predict file c w =
    ({| status := 500;
        body := JsonDetail (String.append "Error processing image: " (Py.str e)) |},
     served w c st).
Proof.
  intros Hm Hct Hb Hopen Harr Hinfer.
  destruct (declares_image_guard _ Hct) as [Ht Hs].
  unfold post_predict.
  rewrite (predict_guards_passed m) by assumption.
  unfold try_except. rewrite predict_try_unfold, Hopen, Harr, Hinfer.
  reflexivity.
Qed.

End Pipeline.

(** ** The claims about /predict *)

Section Claims.

Context {X : Collaborators}.

(** C1. When the module global [model] is [None], a request to /predict is
    answered 503 whatever its upload and its threshold are, and the check
    comes first: the world is left as it was and the request makes no
    external call, so the body is not read, nothing is decoded and the
    engine is not invoked. *)
Theorem predict_model_unset (file : UploadFile) (c : float) (w : World) :
  model w = None ->
  post_predict file c w =
    ({| status := 503;
        body := JsonDetail
          "Model not loaded. Please ensure model weights are available." |}, w)
  /\ trace file c w = [].
Proof.
  intros Hm. split.
  - unfold post_predict, predict. rewrite Hm. reflexivity.
  - rewrite trace_spec, Hm. reflexivity.
Qed.

(** C2, as the code has it.  A class id outside [-5 .. 4] makes the label
    lookup raise [IndexError]; the [except] clause answers 500 with the
    detail "Error processing image: list index out of range", whichever
    row carries the id and whatever the other rows are.  No
    PredictionResponse is produced, so no record is relabelled and none is
    dropped. *)
Theorem class_id_beyond_labels_is_500
        (m : YOLO) (file : UploadFile) (c : float) (w : World)
        (image : PILImage) (image_array : ndarray)
        (results : list Result) (result : Result) (st : EngineState)
        (row : BoxRow) :
  model w = Some m ->
  declares_image (content_type file) ->
  in_unit_interval c ->
  Image_open (contents file) = inr image ->
  np_array image = inr image_array ->
  model_predict m image_array c (engine w) = (inr results, st) ->
  Py.getitem results 0 = inr result ->
  In row (rows result) ->
  row_cls row < -5 \/ 5 <= row_cls row ->
  post_predict file c w =
    ({| status := 500;
        body := JsonDetail "Error processing image: list index out of range" |},
     served w c st).
Proof.
  intros Hm Hct Hc Hopen Harr Hinfer Hres Hin Hcls.
  destruct (declares_image_guard _ Hct) as [Ht Hs].
  apply between_0_1_spec in Hc.
  destruct (map_raise_raises to_detection _ _ _ Hin (to_detection_raises _ Hcls))
    as (e & He).
  assert (Hidx : e = Py.IndexError "list index out of range").
  { destruct (map_raise_first_error _ _ _ He) as (row' & _ & Hrow').
    exact (to_detection_error _ _ Hrow'). }
  subst e.
  unfold post_predict.
  rewrite (predict_guards_passed m) by assumption.
  unfold try_except.
  rewrite predict_try_unfold, Hopen, Harr, Hinfer.
  cbn [bind Monad_raises ret]. rewrite Hres.
  rewrite extract_detections_rows, He. reflexivity.
Qed.

(** C3.  Threshold validation is inclusive at both ends.  The threshold is
    the value the handler receives as [confidence], and the check is reached
    once the model check has passed (a request to an unloaded model is
    answered 503 before it).  A threshold whose value lies in [0, 1], 0.0
    and 1.0 included, passes: with an image content type the handler enters
    the [try] block and the answer is not 400.  Any other threshold (below
    0, above 1, infinite or not a number) is answered 400 before any
    external call, with the detail "Confidence threshold must be between 0.0
    and 1.0" when the content type is an image type. *)
Theorem threshold_check_inclusive (file : UploadFile) (c : float) (w : World) :
  (model w = None -> status (fst (post_predict file c w)) = 503)
  /\ (forall m : YOLO, model w = Some m ->
      (in_unit_interval c ->
       declares_image (content_type file) ->
       predict file c w = try_except (predict_try m file c) predict_except w
       /\ status (fst (post_predict file c w)) <> 400)
      /\ (~ in_unit_interval c ->
          status (fst (post_predict file c w)) = 400
          /\ snd (post_predict file c w) = w
          /\ trace file c w = []
          /\ (declares_image (content_type file) ->
              body (fst (post_predict file c w)) =
                JsonDetail "Confidence threshold must be between 0.0 and 1.0"))).
Proof.
  split.
  { intros Hm. unfold post_predict, predict. rewrite Hm. reflexivity. }
  intros m Hm. split.
  - intros Hc Hct.
    destruct (declares_image_guard _ Hct) as [Ht Hs].
    apply between_0_1_spec in Hc.
    assert (Hp : predict file c w
                 = try_except (predict_try m file c) predict_except w)
      by (apply predict_guards_passed; assumption).
    split; [exact Hp|].
    unfold post_predict. rewrite Hp. unfold try_except.
    destruct (predict_try m file c w) as [[e | r] w']; cbn; discriminate.
  - intros Hc.
    assert (Hb : Py.between 0 c 1 = false).
    { destruct (Py.between 0 c 1) eqn:Hb; [| reflexivity].
      exfalso. apply Hc, between_0_1_spec, Hb. }
    rewrite trace_spec. unfold post_predict, predict. rewrite Hm, Hb.
    destruct (negb (Py.truthy (content_type file))
              || negb (Py.startswith (content_type file) "image/")) eqn:Hg;
      cbn; repeat (split; [reflexivity|]); intros Hct;
      destruct (declares_image_guard _ Hct) as [Ht Hs].
    + rewrite Ht, Hs in Hg. discriminate Hg.
    + reflexivity.
Qed.


(** C5. In every PredictionResponse the service produces, [num_detections]
    is the length of [detections]. *)
Theorem num_detections_is_length
        (file : UploadFile) (c : float) (w w' : World) (r : PredictionResponse) :
  predict file c w = (inr r, w') ->
  num_detections r = Py.len (detections r).
Proof.
  intros H.
  destruct (predict_ok_inv _ _ _ _ _ H)
    as (m & image & arr & results & st & result & _ & _ & _ & _ & _ & _ & _ & _ & _ & Hr & _).
  rewrite Hr. reflexivity.
Qed.

(** C6. A well-formed request whose inference yields no detection (the
    first result has no boxes, or an empty set of them) is answered 200 with
    [success = true], [num_detections = 0], [detections = []] and the
    message "Detection completed successfully". *)
Theorem zero_detections_is_success
        (m : YOLO) (file : UploadFile) (c : float) (w : World)
        (image : PILImage) (image_array : ndarray)
        (results : list Result) (result : Result) (st : EngineState) :
  model w = Some m ->
  declares_image (content_type file) ->
  in_unit_interval c ->
  Image_open (contents file) = inr image ->
  np_array image = inr image_array ->
  model_predict m image_array c (engine w) = (inr results, st) ->
  Py.getitem results 0 = inr result ->
  rows result = [] ->
  post_predict file c w =
    ({| status := 200;
        body := JsonPrediction
                  {| success := true;
                     num_detections := 0;
                     detections := [];
                     message := Some "Detection completed successfully" |} |},
     served w c st).
Proof.
  intros Hm Hct Hc Hopen Harr Hinfer Hres Hrows.
  destruct (declares_image_guard _ Hct) as [Ht Hs].
  apply between_0_1_spec in Hc.
  unfold post_predict.
  rewrite (predict_guards_passed m) by assumption.
  unfold try_except.
  rewrite predict_try_unfold, Hopen, Harr, Hinfer.
  cbn [bind Monad_raises ret]. rewrite Hres.
  rewrite extract_detections_rows, Hrows. reflexivity.
Qed.

(** C7. The detections of a PredictionResponse are the engine's rows in
    the engine's order: there are as many, and the i-th record is what the
    i-th row maps to. *)
Theorem detections_in_engine_order
        (file : UploadFile) (c : float) (w w' : World) (r : PredictionResponse) :
  predict file c w = (inr r, w') ->
  exists m image image_array results st result,
    model w = Some m
    /\ Image_open (contents file) = inr image
    /\ np_array image = inr image_array
    /\ model_predict m image_array c (engine w) = (inr results, st)
    /\ Py.getitem results 0 = inr result
    /\ List.length (detections r) = List.length (rows result)
    /\ forall (i : nat) (row : BoxRow),
         nth_error (rows result) i = Some row ->
         exists d, nth_error (detections r) i = Some d
                   /\ to_detection row = inr d
                   /\ confidence d = row_conf row
                   /\ bounding_box d =
                        {| x1 := at0 (row_xyxy row); y1 := at1 (row_xyxy row);
                           x2 := at2 (row_xyxy row); y2 := at3 (row_xyxy row) |}.
Proof.
  intros H.
  destruct (predict_ok_inv _ _ _ _ _ H)
    as (m & image & arr & results & st & result
        & Hm & _ & _ & _ & Hopen & Harr & Hinfer & Hres & Hds & _ & _).
  exists m, image, arr, results, st, result.
  repeat (split; [assumption|]).
  split; [eapply map_raise_length; exact Hds|].
  apply map_raise_Forall2 in Hds.
  generalize dependent (detections r). generalize (rows result).
  clear. intros l ds Hall. induction Hall as [| row d l ds Hrow Hall IH].
  - intros i row Hi. destruct i; discriminate Hi.
  - intros [| i] row' Hi; cbn [nth_error] in *.
    + injection Hi as <-. exists d. split; [reflexivity|]. split; [exact Hrow|].
      unfold to_detection in Hrow. cbn [bind Monad_raises ret] in Hrow.
      destruct (Py.getitem class_names (row_cls row)); [discriminate|].
      injection Hrow as <-. split; reflexivity.
    + exact (IH i row' Hi).
Qed.

(** C8.  A request whose bytes the handler decodes, having passed the model
    check and the two input guards, and whose bytes fail to decode is
    answered 500 with the detail "Error processing image: " followed by the
    text of the exception, exactly as a failure of the engine is
    ([engine_failure_500]); the body is that detail, never a
    PredictionResponse, and the engine is not invoked. *)
Theorem decode_failure_is_500
        (m : YOLO) (file : UploadFile) (c : float) (w : World) (e : Py.Exception) :
  model w = Some m ->
  declares_image (content_type file) ->
  in_unit_interval c ->
  decode_fails file e ->
  fst (post_predict file c w) =
    {| status := 500;
       body := JsonDetail (String.append "Error processing image: " (Py.str e)) |}
  /\ In EvImageOpen (trace file c w)
  /\ (forall c', ~ In (EvPredict c') (trace file c w))
  /\ engine (snd (post_predict file c w)) = engine w.
Proof.
  intros Hm Hct Hc Hfail.
  destruct (declares_image_guard _ Hct) as [Ht Hs].
  apply between_0_1_spec in Hc.
  rewrite trace_spec. unfold post_predict.
  rewrite (predict_guards_passed m) by assumption.
  rewrite Hm, Ht, Hs, Hc. cbn [negb orb].
  unfold try_except. rewrite predict_try_unfold.
  destruct Hfail as [Hopen | (image & Hopen & Harr)].
  - rewrite Hopen. cbn. repeat split.
    + right; left; reflexivity.
    + intros c' [H | [H | []]]; discriminate H.
  - rewrite Hopen, Harr. cbn. repeat split.
    + right; left; reflexivity.
    + intros c' [H | [H | [H | []]]]; discriminate H.
Qed.

(** C9. With a deterministic engine, the outcome of [predict] depends on
    the world only through the model binding: two calls with the same
    upload and threshold against the same model give the same outcome, in
    particular the same detections in the same order; and a request leaves
    the binding as it was, so calling twice in a row gives the same outcome
    twice. *)
Theorem predict_is_repeatable
        (file : UploadFile) (c : float) (w1 w2 : World) :
  deterministic_engine X ->
  model w1 = model w2 ->
  fst (predict file c w1) = fst (predict file c w2)
  /\ fst (predict file c (snd (predict file c w1))) = fst (predict file c w1).
Proof.
  intros Hdet.
  assert (Hsame : forall wa wb, model wa = model wb ->
                    fst (predict file c wa) = fst (predict file c wb)).
  { intros wa wb Hmodel. unfold predict. rewrite <- Hmodel.
    destruct (model wa) as [m |]; [| reflexivity].
    guards file c ltac:(reflexivity).
    unfold try_except. rewrite !predict_try_unfold.
    destruct (Image_open (contents file)) as [e | image]; [reflexivity|].
    destruct (np_array image) as [e | image_array]; [reflexivity|].
    pose proof (Hdet m image_array c (engine wa) (engine wb)) as Heq.
    destruct (model_predict m image_array c (engine wa)) as [ra sta].
    destruct (model_predict m image_array c (engine wb)) as [rb stb].
    cbn [fst] in Heq. subst rb.
    destruct ra as [e | results]; [reflexivity|].
    cbn [bind Monad_raises ret].
    destruct (Py.getitem results 0) as [e | result]; [reflexivity|].
    destruct (extract_detections result) as [e | ds]; reflexivity. }
  intros Hmodel. split.
  - exact (Hsame w1 w2 Hmodel).
  - apply Hsame. apply predict_model.
Qed.

(** C10. Every 200 response of /predict carries a PredictionResponse whose
    [success] is [true], and no PredictionResponse the handler returns has
    [success = false]. *)
Theorem success_is_always_true
        (file : UploadFile) (c : float) (w : World) :
  (forall r w', predict file c w = (inr r, w') -> success r = true)
  /\ (status (fst (post_predict file c w)) = 200 ->
      exists r, body (fst (post_predict file c w)) = JsonPrediction r
                /\ success r = true).
Proof.
  assert (Hok : forall r w', predict file c w = (inr r, w') -> success r = true).
  { intros r w' H.
    destruct (predict_ok_inv _ _ _ _ _ H)
      as (m & image & arr & results & st & result & _ & _ & _ & _ & _ & _ & _ & _ & _ & Hr & _).
    rewrite Hr. reflexivity. }
  split; [exact Hok|].
  destruct (predict file c w) as [[e | r] w'] eqn:H.
  - rewrite (post_predict_raise _ _ _ _ _ H). cbn [fst status].
    destruct (predict_raise_status _ _ _ _ _ H) as [-> | [-> | ->]]; discriminate.
  - rewrite (post_predict_return _ _ _ _ _ H). cbn [fst status body].
    intros _. exists r. split; [reflexivity | exact (Hok r w' eq_refl)].
Qed.

End Claims.

(** ** The claims at concrete requests, on the small engine *)

Lemma toy_engine_deterministic : deterministic_engine Toy.collaborators.
Proof. intros m a c st st'. reflexivity. Qed.

Lemma jpeg_declares_image (bs : list Byte.byte) :
  declares_image (content_type (Toy.jpeg bs)).
Proof. eexists; split; reflexivity. Qed.


(** The boundary thresholds: 0.0, -0.0, 1.0 and the doubles nearest to
    -0.0001 and 1.0001. *)
Example threshold_boundaries :
  Py.between 0 0 1 = true
  /\ Py.between 0 (-0) 1 = true
  /\ Py.between 0 1 1 = true
  /\ Py.between 0 (-0x1.a36e2eb1c432dp-14) 1 = false
  /\ Py.between 0 0x1.00068db8bac71p+0 1 = false
  /\ Py.between 0 nan 1 = false
  /\ Py.between 0 infinity 1 = false.
Proof. repeat split; reflexivity. Qed.

(** An unloaded model answers 503 to a text upload with threshold 1.5. *)
Lemma predict_model_unset_witness :
  post_predict (Toy.text [Byte.x03]) 1.5 Toy.unloaded =
    ({| status := 503;
        body := JsonDetail
          "Model not loaded. Please ensure model weights are available." |},
     Toy.unloaded)
  /\ trace (Toy.text [Byte.x03]) 1.5 Toy.unloaded = [].
Proof.
  apply (predict_model_unset (Toy.text [Byte.x03]) 1.5 Toy.unloaded).
  reflexivity.
Defined.

(** Two rows, of class ids 0 and 4. *)
Lemma num_detections_is_length_witness :
  exists r w',
    predict (Toy.jpeg [Byte.x03; Byte.x08; Byte.x0c]) 0.25 Toy.loaded = (inr r, w')
    /\ Py.len (detections r) = 2
    /\ num_detections r = Py.len (detections r).
Proof.
  eexists. eexists. split; [reflexivity|]. split; [reflexivity|].
  eapply (num_detections_is_length (Toy.jpeg [Byte.x03; Byte.x08; Byte.x0c])
                                   0.25 Toy.loaded).
  reflexivity.
Defined.

(** One row of score 0.5 against the threshold 0.75: nothing qualifies. *)
Lemma zero_detections_is_success_witness :
  post_predict (Toy.jpeg [Byte.x03; Byte.x08]) 0.75 Toy.loaded =
    ({| status := 200;
        body := JsonPrediction
                  {| success := true;
                     num_detections := 0;
                     detections := [];
                     message := Some "Detection completed successfully" |} |},
     served Toy.loaded 0.75 1%nat).
Proof.
  apply (zero_detections_is_success
           (X := Toy.collaborators) tt (Toy.jpeg [Byte.x03; Byte.x08]) 0.75
           Toy.loaded [Byte.x03; Byte.x08] [Byte.x03; Byte.x08]
           [ {| boxes := Some [] |} ] {| boxes := Some [] |} 1%nat).
  - reflexivity.
  - apply jpeg_declares_image.
  - apply between_0_1_spec. reflexivity.
  - reflexivity.
  - reflexivity.
  - reflexivity.
  - reflexivity.
  - reflexivity.
Defined.

(** Rows of class ids 4 and 0, in that order, give "objects" then "100 tk". *)
Lemma detections_in_engine_order_witness :
  exists r w',
    predict (Toy.jpeg [Byte.x03; Byte.x0c; Byte.x08]) 0.25 Toy.loaded = (inr r, w')
    /\ map class_name (detections r) = ["objects"; "100 tk"]
    /\ exists result,
         rows result = [Toy.row_of Byte.x0c; Toy.row_of Byte.x08]
         /\ List.length (detections r) = List.length (rows result)
         /\ forall i row,
              nth_error (rows result) i = Some row ->
              exists d, nth_error (detections r) i = Some d
                        /\ to_detection row = inr d.
Proof.
  eexists. eexists. split; [reflexivity|]. split; [reflexivity|].
  destruct (detections_in_engine_order
              (Toy.jpeg [Byte.x03; Byte.x0c; Byte.x08]) 0.25 Toy.loaded _ _ eq_refl)
    as (m & image & arr & results & st & result
        & _ & Hopen & Harr & Hinfer & Hres & Hlen & Hnth).
  injection Hopen as <-. injection Harr as <-.
  injection Hinfer as <- _. injection Hres as <-.
  exists {| boxes := Some [Toy.row_of Byte.x0c; Toy.row_of Byte.x08] |}.
  split; [reflexivity|]. split; [exact Hlen|].
  intros i row Hi. destruct (Hnth i row Hi) as (d & Hd & Hrow & _).
  exists d. split; assumption.
Defined.

Lemma success_is_always_true_witness :
  exists r,
    body (fst (post_predict (Toy.jpeg [Byte.x03; Byte.x08]) 0.25 Toy.loaded))
    = JsonPrediction r
    /\ success r = true.
Proof.
  apply (proj2 (success_is_always_true
                  (Toy.jpeg [Byte.x03; Byte.x08]) 0.25 Toy.loaded)).
  reflexivity.
Defined.

(** Rows of class ids 0 and 5: the second is beyond the five labels. *)
Lemma class_id_beyond_labels_is_500_witness :
  post_predict (Toy.jpeg [Byte.x03; Byte.x08; Byte.x0d]) 0.25 Toy.loaded =
    ({| status := 500;
        body := JsonDetail "Error processing image: list index out of range" |},
     served Toy.loaded 0.25 1%nat).
Proof.
  apply (class_id_beyond_labels_is_500
           (X := Toy.collaborators) tt (Toy.jpeg [Byte.x03; Byte.x08; Byte.x0d])
           0.25 Toy.loaded
           [Byte.x03; Byte.x08; Byte.x0d] [Byte.x03; Byte.x08; Byte.x0d]
           [ {| boxes := Some [Toy.row_of Byte.x08; Toy.row_of Byte.x0d] |} ]
           {| boxes := Some [Toy.row_of Byte.x08; Toy.row_of Byte.x0d] |}
           1%nat (Toy.row_of Byte.x0d)).
  - reflexivity.
  - apply jpeg_declares_image.
  - apply between_0_1_spec. reflexivity.
  - reflexivity.
  - reflexivity.
  - reflexivity.
  - reflexivity.
  - right; left; reflexivity.
  - right. cbn. lia.
Defined.

(** C2 as stated fails: the engine returns class id -1, which is none of
    0 .. 4, and the request is answered 200 with a record labelled
    "objects", the last of the five labels. *)
Lemma negative_class_id_is_labelled :
  model_predict (Collaborators := Toy.collaborators)
                tt [Byte.x03; Byte.x07] 0.25 0%nat
    = (inr [ {| boxes := Some [Toy.row_of Byte.x07] |} ], 1%nat)
  /\ row_cls (Toy.row_of Byte.x07) = -1
  /\ post_predict (Toy.jpeg [Byte.x03; Byte.x07]) 0.25 Toy.loaded =
       ({| status := 200;
           body := JsonPrediction
                     {| success := true;
                        num_detections := 1;
                        detections :=
                          [ {| class_name := "objects";
                               confidence := 0.5;
                               bounding_box :=
                                 {| x1 := 1; y1 := 2; x2 := 3; y2 := 4 |} |} ];
                        message := Some "Detection completed successfully" |} |},
        served Toy.loaded 0.25 1%nat).
Proof. repeat split; reflexivity. Qed.

(** Thresholds 1.0 and the double nearest to 1.0001, with the model loaded. *)
Lemma threshold_check_inclusive_witness :
  status (fst (post_predict (Toy.jpeg [Byte.x03]) 1 Toy.loaded)) <> 400
  /\ status (fst (post_predict (Toy.jpeg [Byte.x03]) 0x1.00068db8bac71p+0
                               Toy.loaded)) = 400.
Proof.
  split.
  - apply (proj1 (proj2 (threshold_check_inclusive
                           (Toy.jpeg [Byte.x03]) 1 Toy.loaded) tt eq_refl)).
    + apply between_0_1_spec. reflexivity.
    + apply jpeg_declares_image.
  - apply (proj2 (proj2 (threshold_check_inclusive
                           (Toy.jpeg [Byte.x03]) 0x1.00068db8bac71p+0
                           Toy.loaded) tt eq_refl)).
    intros H. apply between_0_1_spec in H. discriminate H.
Defined.



(** An empty upload tagged image/jpeg: opening it raises. *)
Lemma decode_failure_is_500_witness :
  fst (post_predict (Toy.jpeg []) 0.25 Toy.loaded) =
    {| status := 500;
       body := JsonDetail "Error processing image: cannot identify image file" |}.
Proof.
  apply (decode_failure_is_500
           (X := Toy.collaborators) tt (Toy.jpeg []) 0.25 Toy.loaded
           (Py.OtherException "UnidentifiedImageError" "cannot identify image file")).
  - reflexivity.
  - apply jpeg_declares_image.
  - apply between_0_1_spec. reflexivity.
  - left; reflexivity.
Defined.

(** The same request twice in a row on the small engine. *)
Lemma predict_is_repeatable_witness :
  fst (predict (Toy.jpeg [Byte.x03; Byte.x08; Byte.x0c]) 0.25
               (snd (predict (Toy.jpeg [Byte.x03; Byte.x08; Byte.x0c]) 0.25
                             Toy.loaded)))
  = fst (predict (Toy.jpeg [Byte.x03; Byte.x08; Byte.x0c]) 0.25 Toy.loaded).
Proof.
  apply (proj2 (predict_is_repeatable
                  (Toy.jpeg [Byte.x03; Byte.x08; Byte.x0c]) 0.25
                  Toy.loaded Toy.loaded toy_engine_deterministic eq_refl)).
Defined.

(** * Properties of the rest of the service and of the scripts *)

(** ** Loading the model and the informational routes *)

Section StartupProperties.

Context {X : Collaborators} {F : Filesystem} {K : Constructor X}.

(** /predict answers 503 exactly when the model is unset. *)
Lemma post_predict_503_iff (file : UploadFile) (c : float) (w : World) :
  status (fst (post_predict file c w)) = 503 <-> model w = None.
Proof.
  unfold post_predict, predict.
  destruct (model w) as [m |]; [| cbn; split; reflexivity].
  split; [| discriminate].
  guards file c ltac:(cbn; discriminate).
  unfold try_except.
  destruct (predict_try m file c w) as [[e | r] w']; cbn; discriminate.
Qed.

(** [load_model] as a case analysis on the host. *)
Lemma load_model_unfold (model_path : string) (p : Process) :
  load_model model_path p =
  if negb (path_exists model_path) then
    (inl (FileNotFoundError (weights_not_found model_path)), p)
  else
    let line := String.concat "" ["Loading model from "; model_path; "..."] in
    let (r, st) := YOLO_new model_path (engine (world p)) in
    match r with
    | inl e =>
        (inl e, {| world := {| model := model (world p); engine := st;
                               log := log (world p) |};
                   stdout := stdout p ++ [line] |})
    | inr m =>
        (inr tt, {| world := {| model := Some m; engine := st;
                                log := log (world p) |};
                    stdout := (stdout p ++ [line])
                              ++ ["Model loaded successfully!"] |})
    end.
Proof.
  unfold load_model.
  destruct (negb (path_exists model_path)); [reflexivity|].
  unfold print, construct, assign_model. cbn [bind Monad_Handler ret world stdout].
  destruct (YOLO_new model_path (engine (world p))) as [[e | m] st]; reflexivity.
Qed.

(** X1. [load_model] either loads or leaves the binding alone: when it
    raises, the global [model] is what it was, so a failed reload never
    unloads a loaded model; when it returns, the weights exist and [model]
    is the object the constructor returned. *)
Theorem load_model_outcome (model_path : string) (p p' : Process) :
  (forall e, load_model model_path p = (inl e, p') ->
             model (world p') = model (world p))
  /\ (load_model model_path p = (inr tt, p') ->
      path_exists model_path = true
      /\ exists m, fst (YOLO_new model_path (engine (world p))) = inr m
                   /\ model (world p') = Some m).
Proof.
  rewrite load_model_unfold.
  destruct (path_exists model_path); cbn [negb].
  - destruct (YOLO_new model_path (engine (world p))) as [[e0 | m] st]; split.
    + intros e H. injection H as _ <-. reflexivity.
    + discriminate.
    + discriminate.
    + intros H. injection H as <-. split; [reflexivity|].
      exists m. split; reflexivity.
  - split.
    + intros e H. injection H as _ <-. reflexivity.
    + discriminate.
Qed.

(** X2. Missing weights do not stop the server: [startup_event] returns
    normally, prints its two warning lines, and leaves the world as it was;
    a process started with no model then answers 503 to every /predict
    request, and /health reports "not loaded". *)
Theorem startup_without_weights (p : Process) :
  path_exists default_model_path = false ->
  model (world p) = None ->
  exists p',
    startup_event p = (inr tt, p')
    /\ world p' = world p
    /\ stdout p' = stdout p ++
         [ String.append "Warning: " (weights_not_found default_model_path);
           "API will start but /predict endpoint will return errors until model is available." ]
    /\ (forall file c, status (fst (post_predict file c (world p'))) = 503)
    /\ subscript (health_check (world p')) "model_status"
       = Some (VStr "not loaded").
Proof.
  intros Hmissing Hnone.
  unfold startup_event, try_except. rewrite load_model_unfold, Hmissing.
  cbn [negb]. change (is_FileNotFoundError (FileNotFoundError
                        (weights_not_found default_model_path))) with true.
  cbv iota. unfold print. cbn [bind Monad_Handler ret world stdout].
  eexists. split; [reflexivity|]. cbn [world stdout].
  split; [reflexivity|].
  split; [rewrite <- app_assoc; reflexivity|].
  split.
  - intros file c. apply post_predict_503_iff. exact Hnone.
  - unfold health_check. rewrite Hnone. reflexivity.
Qed.

(** X3. [startup_event] swallows [FileNotFoundError] and nothing else: it
    raises [e] exactly when the weights exist, the constructor raises [e],
    and [e] is not a [FileNotFoundError].  Weights that are present but
    cannot be loaded fail the startup instead of degrading /predict. *)
Theorem startup_raises_iff (p : Process) (e : Py.Exception) :
  fst (startup_event p) = inl e
  <-> path_exists default_model_path = true
      /\ fst (YOLO_new default_model_path (engine (world p))) = inl e
      /\ is_FileNotFoundError e = false.
Proof.
  unfold startup_event, try_except. rewrite load_model_unfold.
  destruct (path_exists default_model_path); cbn [negb].
  - destruct (YOLO_new default_model_path (engine (world p))) as [[e0 | m] st];
      cbn [fst].
    + destruct (is_FileNotFoundError e0) eqn:Hfnf.
      * unfold print. cbn. split; [discriminate|].
        intros (_ & H & Hne). injection H as ->. congruence.
      * cbn. split.
        -- intros H. injection H as <-. repeat split. exact Hfnf.
        -- intros (_ & H & _). injection H as <-. reflexivity.
    + split; [discriminate | intros (_ & H & _); discriminate H].
  - change (is_FileNotFoundError (FileNotFoundError
              (weights_not_found default_model_path))) with true.
    cbv iota. unfold print. cbn.
    split; [discriminate | intros (H & _); discriminate H].
Qed.

(** X4. When the weights exist and the constructor returns [m],
    [startup_event] binds [model] to [m]; from then on /health reports
    "loaded" and no /predict request is answered 503. *)
Theorem startup_with_weights (p : Process) (m : YOLO) (st : EngineState) :
  path_exists default_model_path = true ->
  YOLO_new default_model_path (engine (world p)) = (inr m, st) ->
  exists p',
    startup_event p = (inr tt, p')
    /\ model (world p') = Some m
    /\ subscript (health_check (world p')) "model_status" = Some (VStr "loaded")
    /\ forall file c, status (fst (post_predict file c (world p'))) <> 503.
Proof.
  intros Hexists Hnew.
  unfold startup_event, try_except. rewrite load_model_unfold, Hexists, Hnew.
  cbn [negb]. eexists. split; [reflexivity|]. cbn [world model].
  split; [reflexivity|]. split; [reflexivity|].
  intros file c H. apply post_predict_503_iff in H. discriminate H.
Qed.

(** X5. /health is always "healthy", and its [model_status] tells what
    /predict will do: it is "not loaded" exactly when a /predict request,
    whatever it carries, is answered 503. *)
Theorem health_tells_503 (w : World) (file : UploadFile) (c : float) :
  subscript (health_check w) "status" = Some (VStr "healthy")
  /\ (subscript (health_check w) "model_status" = Some (VStr "not loaded")
      <-> status (fst (post_predict file c w)) = 503).
Proof.
  split; [reflexivity|].
  rewrite post_predict_503_iff. unfold health_check.
  destruct (model w); cbn; split; congruence.
Qed.

(** X17. The external calls of one request come in one fixed order and each
    at most once: what a request appends to the log is a beginning of
    read, open, array, predict.  In particular the engine is called at most
    once, with the request's own threshold, and never before the upload was
    read and decoded. *)
Theorem trace_is_a_prefix (file : UploadFile) (c : float) (w : World) :
  exists n, trace file c w
            = firstn n [EvRead; EvImageOpen; EvArray; EvPredict c].
Proof.
  rewrite trace_spec.
  destruct (model w) as [m |]; [| exists 0%nat; reflexivity].
  guards file c ltac:(exists 0%nat; reflexivity).
  destruct (Image_open (contents file)) as [e | image];
    [exists 2%nat; reflexivity|].
  destruct (np_array image) as [e | image_array];
    [exists 3%nat | exists 4%nat]; reflexivity.
Qed.

(** X18. No request touches the model: after any /predict request the
    global [model] is what it was, and the engine's state is what it was
    too unless the request reached the engine call. *)
Theorem predict_leaves_model (file : UploadFile) (c : float) (w : World) :
  model (snd (predict file c w)) = model w
  /\ (~ In (EvPredict c) (trace file c w) ->
      engine (snd (predict file c w)) = engine w).
Proof.
  split; [apply predict_model|].
  rewrite trace_spec. unfold predict.
  destruct (model w) as [m |]; [| reflexivity].
  guards file c ltac:(reflexivity).
  unfold try_except. rewrite predict_try_unfold.
  destruct (Image_open (contents file)) as [e | image]; [reflexivity|].
  destruct (np_array image) as [e | image_array]; [reflexivity|].
  intros Hnot. exfalso. apply Hnot. cbn [In]. tauto.
Qed.

End StartupProperties.

(** ** The detector class of inference.py *)

(** The loop of inference.py builds, row by row, the dict of the record the
    loop of api.py builds. *)
Lemma detector_detection_at_api
      (boxes : list (float * float * float * float))
      (confidences : list float) (class_ids : list Z) (i : nat) :
  detector_detection_at class_names boxes confidences class_ids i
  = (d <- detection_at boxes confidences class_ids i ;; ret (Detection_dict d)).
Proof.
  unfold detector_detection_at, detection_at. cbn [bind Monad_raises ret].
  destruct (Py.array_get class_ids i) as [e | class_id]; [reflexivity|].
  destruct (Py.getitem class_names class_id) as [e | name]; [reflexivity|].
  destruct (Py.array_get confidences i) as [e | c]; [reflexivity|].
  destruct (Py.array_get boxes i) as [e | b]; reflexivity.
Qed.

Lemma detector_for_range_api
      (boxes : list (float * float * float * float))
      (confidences : list float) (class_ids : list Z)
      (indices : list nat) (done : list Detection) :
  detector_for_range class_names boxes confidences class_ids indices
                     (map Detection_dict done)
  = (ds <- for_range boxes confidences class_ids indices done ;;
     ret (map Detection_dict ds)).
Proof.
  revert done. induction indices as [| i rest IH]; intros done; [reflexivity|].
  cbn [detector_for_range for_range]. rewrite detector_detection_at_api.
  destruct (detection_at boxes confidences class_ids i) as [e | d];
    cbn [bind Monad_raises ret]; [reflexivity|].
  change [Detection_dict d] with (map Detection_dict [d]).
  rewrite <- map_app, IH. reflexivity.
Qed.

Lemma detector_extract_api (result : Result) :
  detector_extract class_names result
  = (ds <- extract_detections result ;; ret (map Detection_dict ds)).
Proof.
  unfold detector_extract, extract_detections.
  destruct (boxes result) as [bs |]; [| reflexivity].
  destruct (0 <? Py.len bs); [| reflexivity].
  exact (detector_for_range_api (xyxy bs) (conf bs) (cls bs) _ []).
Qed.

Section DetectorProperties.

Context {X : Collaborators} {F : Filesystem} {K : Constructor X}.

(** [TakaNoteDetector.predict] as a case analysis. *)
Lemma TakaNoteDetector_predict_unfold
      (self : TakaNoteDetector) (image_path : string) (c : float) (s : Shell) :
  TakaNoteDetector_predict self image_path c s =
  if negb (path_exists image_path) then
    (inl (FileNotFoundError (String.append "Image not found at " image_path)), s)
  else
    let (r, st) := model_predict_path (self_model self) image_path c (sh_engine s) in
    (match r with
     | inl e => inl e
     | inr results =>
         result <- Py.getitem results 0 ;;
         detections <- detector_extract (self_class_names self) result ;;
         ret (VDict [ ("image_path", VStr image_path);
                      ("num_detections", VInt (Py.len detections));
                      ("detections", VList detections) ])
     end,
     {| sh_engine := st; sh_stdout := sh_stdout s;
        sh_calls := sh_calls s ++ [(image_path, c)] |}).
Proof.
  unfold TakaNoteDetector_predict.
  destruct (negb (path_exists image_path)); [reflexivity|].
  unfold sh_predict, lift. cbn [bind Monad_Handler ret].
  destruct (model_predict_path (self_model self) image_path c (sh_engine s))
    as [[e | results] st]; [reflexivity|].
  cbn [bind Monad_raises ret].
  destruct (Py.getitem results 0) as [e | result]; [reflexivity|].
  destruct (detector_extract (self_class_names self) result); reflexivity.
Qed.

(** The constructor either raises or gives a detector with the five labels
    of api.py. *)
Lemma TakaNoteDetector_init_class_names
      (model_path : string) (s s' : Shell) (self : TakaNoteDetector) :
  TakaNoteDetector_init model_path s = (inr self, s') ->
  self_class_names self = class_names.
Proof.
  unfold TakaNoteDetector_init.
  destruct (negb (path_exists model_path)); [discriminate|].
  unfold sh_print, sh_construct. cbn [bind Monad_Handler ret sh_engine].
  destruct (YOLO_new model_path (sh_engine s)) as [[e | m] st]; [discriminate|].
  intros H. injection H as <- _. reflexivity.
Qed.

(** X6. The script and the API agree.  For a detector made by the class
    constructor and an image that exists, whatever the engine returns as
    first result, [TakaNoteDetector.predict] returns the image path, the
    count and the dicts of exactly the records the API extracts from that
    result, in the same order; and when the API's extraction raises, the
    script raises the same exception, which reaches the caller. *)
Theorem detector_agrees_with_api
        (model_path image_path : string) (c : float) (s0 s1 s : Shell)
        (self : TakaNoteDetector)
        (results : list Result) (result : Result) (st : EngineState) :
  TakaNoteDetector_init model_path s0 = (inr self, s1) ->
  path_exists image_path = true ->
  model_predict_path (self_model self) image_path c (sh_engine s) = (inr results, st) ->
  Py.getitem results 0 = inr result ->
  fst (TakaNoteDetector_predict self image_path c s) =
    match extract_detections result with
    | inl e => inl e
    | inr ds =>
        inr (VDict [ ("image_path", VStr image_path);
                     ("num_detections", VInt (Py.len ds));
                     ("detections", VList (map Detection_dict ds)) ])
    end.
Proof.
  intros Hinit Hexists Hinfer Hres.
  rewrite TakaNoteDetector_predict_unfold, Hexists, Hinfer. cbn [negb fst].
  cbn [bind Monad_raises ret]. rewrite Hres.
  rewrite (TakaNoteDetector_init_class_names _ _ _ _ Hinit), detector_extract_api.
  cbn [bind Monad_raises ret].
  destruct (extract_detections result) as [e | ds]; [reflexivity|].
  unfold Py.len. rewrite length_map. reflexivity.
Qed.

(** X7. Whatever a detector's labels are, the dict [predict] returns names
    the image it was given and counts its own detections:
    [d["num_detections"]] is the length of [d["detections"]]; and a dict is
    returned only for an image that exists. *)
Theorem detector_result_shape
        (self : TakaNoteDetector) (image_path : string) (c : float)
        (s s' : Shell) (d : Value) :
  TakaNoteDetector_predict self image_path c s = (inr d, s') ->
  path_exists image_path = true
  /\ subscript d "image_path" = Some (VStr image_path)
  /\ exists ds, subscript d "detections" = Some (VList ds)
                /\ subscript d "num_detections" = Some (VInt (Py.len ds)).
Proof.
  rewrite TakaNoteDetector_predict_unfold.
  destruct (path_exists image_path); [| discriminate]. cbn [negb].
  destruct (model_predict_path (self_model self) image_path c (sh_engine s))
    as [[e | results] st]; [discriminate|].
  cbn [bind Monad_raises ret].
  destruct (Py.getitem results 0) as [e | result]; [discriminate|].
  destruct (detector_extract (self_class_names self) result) as [e | ds];
    [discriminate|].
  intros H. injection H as <- _.
  split; [reflexivity|]. split; [reflexivity|].
  exists ds. split; reflexivity.
Qed.

(** X8. [predict] checks the path and nothing else.  For a missing image it
    raises FileNotFoundError "Image not found at <path>" and the process is
    left as it was, the engine not called.  For an image that exists it
    calls the engine exactly once, with that path and the threshold as
    given, whatever the threshold is: no threshold is rejected. *)
Theorem detector_calls_engine
        (self : TakaNoteDetector) (image_path : string) (c : float) (s : Shell) :
  (path_exists image_path = false ->
   TakaNoteDetector_predict self image_path c s =
     (inl (FileNotFoundError (String.append "Image not found at " image_path)), s))
  /\ (path_exists image_path = true ->
      sh_calls (snd (TakaNoteDetector_predict self image_path c s))
        = sh_calls s ++ [(image_path, c)]).
Proof.
  rewrite TakaNoteDetector_predict_unfold. split; intros H; rewrite H; cbn [negb].
  - reflexivity.
  - destruct (model_predict_path (self_model self) image_path c (sh_engine s))
      as [r st]. reflexivity.
Qed.

(** X9. The script has no [except] clause: when the first result carries a
    row whose class id is below -5 or above 4, [predict] of a detector made
    by the class constructor raises IndexError "list index out of range" to
    its caller and returns no dict. *)
Theorem detector_class_id_beyond_labels_raises
        (model_path image_path : string) (c : float) (s0 s1 s : Shell)
        (self : TakaNoteDetector)
        (results : list Result) (result : Result) (st : EngineState)
        (row : BoxRow) :
  TakaNoteDetector_init model_path s0 = (inr self, s1) ->
  path_exists image_path = true ->
  model_predict_path (self_model self) image_path c (sh_engine s) = (inr results, st) ->
  Py.getitem results 0 = inr result ->
  In row (rows result) ->
  row_cls row < -5 \/ 5 <= row_cls row ->
  fst (TakaNoteDetector_predict self image_path c s)
    = inl (Py.IndexError "list index out of range").
Proof.
  intros Hinit Hexists Hinfer Hres Hin Hcls.
  rewrite TakaNoteDetector_predict_unfold, Hexists, Hinfer. cbn [negb fst].
  cbn [bind Monad_raises ret]. rewrite Hres.
  rewrite (TakaNoteDetector_init_class_names _ _ _ _ Hinit), detector_extract_api.
  rewrite extract_detections_rows.
  destruct (map_raise_raises to_detection _ _ _ Hin (to_detection_raises _ Hcls))
    as (e & He).
  rewrite He. cbn [bind Monad_raises].
  destruct (map_raise_first_error _ _ _ He) as (row' & _ & Hrow').
  rewrite (to_detection_error _ _ Hrow'). reflexivity.
Qed.

(** X15. The two loaders agree.  On the same host and from the same engine
    state, [load_model] of api.py and the constructor of [TakaNoteDetector]
    raise the same exception or both succeed, and then the global [model]
    is the very object the detector holds. *)
Theorem loaders_agree (model_path : string) (p : Process) (s : Shell) :
  engine (world p) = sh_engine s ->
  match fst (load_model model_path p), fst (TakaNoteDetector_init model_path s) with
  | inl e, inl e' => e = e'
  | inr _, inr self =>
      model (world (snd (load_model model_path p))) = Some (self_model self)
      /\ self_class_names self = class_names
  | _, _ => False
  end.
Proof.
  intros Hengine. rewrite load_model_unfold. unfold TakaNoteDetector_init.
  destruct (negb (path_exists model_path)); [reflexivity|].
  unfold sh_print, sh_construct. cbn [bind Monad_Handler ret sh_engine].
  rewrite <- Hengine.
  destruct (YOLO_new model_path (engine (world p))) as [[e | m] st];
    cbn; [reflexivity | split; reflexivity].
Qed.

End DetectorProperties.

(** ** verify_setup.py *)

Section VerifySetupProperties.

Context {F : Filesystem} {I : Interpreter}.

(** A printed line with a literal beginning is none of the summary's. *)
Ltac line_ok :=
  repeat split; intros Hline; cbv in Hline; discriminate Hline.

Lemma spec_say (line : string) (P : string -> Prop) :
  P line -> script_spec (say line) P (fun r => r = inr tt).
Proof.
  intros HP out. exists [line]. cbn. repeat split. constructor; [exact HP | constructor].
Qed.

Lemma spec_ret {A : Type} (a : A) (P : string -> Prop) :
  script_spec (ret a : Script A) P (fun r => r = inr a).
Proof.
  intros out. exists []. cbn. rewrite app_nil_r. repeat split. constructor.
Qed.

(** Sequencing after a step that returns the value [v]. *)
Lemma spec_bind {A B : Type} (c : Script A) (k : A -> Script B) (v : A)
      (P : string -> Prop) (Q : Py.Exception + B -> Prop) :
  script_spec c P (fun r => r = inr v) ->
  script_spec (k v) P Q ->
  script_spec (bind c k) P Q.
Proof.
  intros Hc Hk out.
  destruct (Hc out) as (l1 & Hout1 & HP1 & Hr1).
  cbn [bind Monad_Handler]. destruct (c out) as [r out1]. cbn [fst snd] in *.
  subst r out1.
  destruct (Hk (out ++ l1)) as (l2 & Hout2 & HP2 & Hr2).
  exists (l1 ++ l2). rewrite Hout2, <- app_assoc.
  repeat split; [apply Forall_app; split; assumption | exact Hr2].
Qed.

Lemma spec_check_file_exists (filepath description : string) :
  script_spec (check_file_exists filepath description) verdict_free
              (fun r => r = inr (path_exists filepath)).
Proof.
  unfold check_file_exists.
  destruct (path_exists filepath);
    (eapply spec_bind; [apply spec_say; line_ok | apply spec_ret]).
Qed.

Lemma spec_lift {A : Type} (r : Py.Exception + A) (P : string -> Prop) :
  script_spec (lift r : Script A) P (fun r' => r' = r).
Proof.
  intros out. exists []. cbn. rewrite app_nil_r. repeat split. constructor.
Qed.

(** Sequencing after a step that may raise. *)
Lemma spec_bind_gen {A B : Type} (c : Script A) (k : A -> Script B)
      (P : string -> Prop)
      (Q1 : Py.Exception + A -> Prop) (Q : Py.Exception + B -> Prop) :
  script_spec c P Q1 ->
  (forall a, Q1 (inr a) -> script_spec (k a) P Q) ->
  (forall e, Q1 (inl e) -> Q (inl e)) ->
  script_spec (bind c k) P Q.
Proof.
  intros Hc Hk Hraise out.
  destruct (Hc out) as (l1 & Hout1 & HP1 & Hr1).
  cbn [bind Monad_Handler]. destruct (c out) as [[e | a] out1];
    cbn [fst snd] in *; subst out1.
  - exists l1. repeat split; [exact HP1 | exact (Hraise e Hr1)].
  - destruct (Hk a Hr1 (out ++ l1)) as (l2 & Hout2 & HP2 & Hr2).
    exists (l1 ++ l2). rewrite Hout2, <- app_assoc.
    repeat split; [apply Forall_app; split; assumption | exact Hr2].
Qed.

(** The directory check tells whether the path is a directory that exists,
    unless listing that directory raises. *)
Lemma spec_check_directory_exists (dirpath description : string) :
  script_spec (check_directory_exists dirpath description) verdict_free
    (fun r =>
       if path_exists dirpath && path_isdir dirpath then
         match listdir dirpath with
         | inr _ => r = inr true
         | inl e => r = inl e
         end
       else r = inr false).
Proof.
  unfold check_directory_exists.
  destruct (path_exists dirpath && path_isdir dirpath).
  - destruct (listdir dirpath) as [e | files].
    + eapply spec_bind_gen; [apply spec_lift | discriminate |].
      intros e' He'. injection He' as ->. reflexivity.
    + eapply spec_bind; [apply spec_lift|].
      eapply spec_bind; [apply spec_say; line_ok | apply spec_ret].
  - eapply spec_bind; [apply spec_say; line_ok | apply spec_ret].
Qed.

(** What a directory check that returned or raised tells about listing. *)
Lemma directory_check_returned (d : string) (found : bool) :
  (if path_exists d && path_isdir d then
     match listdir d with
     | inr _ => @inr Py.Exception bool found = inr true
     | inl e => @inr Py.Exception bool found = inl e
     end
   else @inr Py.Exception bool found = inr false) ->
  found = path_exists d && path_isdir d /\ listable d.
Proof.
  unfold listable.
  destruct (path_exists d && path_isdir d).
  - destruct (listdir d) as [e | files]; [discriminate|].
    intros H. injection H as ->. split; [reflexivity|].
    intros _. exists files. reflexivity.
  - intros H. injection H as ->. split; [reflexivity | discriminate].
Qed.

Lemma directory_check_raised (d : string) (e : Py.Exception) :
  (if path_exists d && path_isdir d then
     match listdir d with
     | inr _ => @inl Py.Exception bool e = inr true
     | inl e' => @inl Py.Exception bool e = inl e'
     end
   else @inl Py.Exception bool e = inr false) ->
  ~ listable d.
Proof.
  unfold listable.
  destruct (path_exists d && path_isdir d); [| discriminate].
  destruct (listdir d) as [e' | files]; [| discriminate].
  intros _ H. destruct (H eq_refl) as (files & Hfiles). discriminate Hfiles.
Qed.

(** One import block: it keeps [all_ok] when the package imports, clears it
    on ImportError, and lets any other exception through. *)
Lemma spec_try_import (name : string) (all_ok : bool) :
  script_spec (try_import name all_ok) verdict_free
    (fun r =>
       match import_module name with
       | inr _ => r = inr all_ok
       | inl e => if is_ImportError e then r = inr false else r = inl e
       end).
Proof.
  intros out. unfold try_import, try_except, lift, say.
  cbn [bind Monad_Handler ret].
  destruct (import_module name) as [e | []].
  - destruct (is_ImportError e).
    + eexists [_]. cbn. repeat split. constructor; [line_ok | constructor].
    + exists []. cbn. rewrite app_nil_r. repeat split. constructor.
  - eexists [_]. cbn. repeat split. constructor; [line_ok | constructor].
Qed.

(** Sequencing after an import block. *)
Lemma spec_bind_import {B : Type} (name : string) (all_ok : bool)
      (k : bool -> Script B) (Q : Py.Exception + B -> Prop) :
  (imports name -> script_spec (k all_ok) verdict_free Q) ->
  (forall e, import_module name = inl e -> is_ImportError e = true ->
             script_spec (k false) verdict_free Q) ->
  (forall e, import_module name = inl e -> is_ImportError e = false ->
             Q (inl e)) ->
  script_spec (bind (try_import name all_ok) k) verdict_free Q.
Proof.
  intros Hok Hmissing Hraise out.
  destruct (spec_try_import name all_ok out) as (l1 & Hout1 & HP1 & Hr1).
  cbn [bind Monad_Handler].
  destruct (try_import name all_ok out) as [r out1]. cbn [fst snd] in *.
  subst out1. unfold imports in Hok.
  destruct (import_module name) as [e | []] eqn:Himp.
  - destruct (is_ImportError e) eqn:He; subst r.
    + destruct (Hmissing e eq_refl He (out ++ l1)) as (l2 & Hout2 & HP2 & Hr2).
      exists (l1 ++ l2). rewrite Hout2, <- app_assoc.
      repeat split; [apply Forall_app; split; assumption | exact Hr2].
    + exists l1. cbn. repeat split; [exact HP1 | exact (Hraise e eq_refl He)].
  - subst r.
    destruct (Hok eq_refl (out ++ l1)) as (l2 & Hout2 & HP2 & Hr2).
    exists (l1 ++ l2). rewrite Hout2, <- app_assoc.
    repeat split; [apply Forall_app; split; assumption | exact Hr2].
Qed.

Lemma spec_weaken {A : Type} (c : Script A) (P : string -> Prop)
      (Q Q' : Py.Exception + A -> Prop) :
  script_spec c P Q -> (forall r, Q r -> Q' r) -> script_spec c P Q'.
Proof.
  intros Hc HQ out. destruct (Hc out) as (l & Hout & HP & Hr).
  exists l. repeat split; [exact Hout | exact HP | exact (HQ _ Hr)].
Qed.

(** One step of a script followed by the rest. *)
Ltac step :=
  eapply spec_bind;
  [ first [ apply spec_check_file_exists
          | apply spec_say; line_ok ]
  | cbn zeta ].

(** How an import that did not end the run leaves [import_settles]. *)
Lemma imports_settles (name : string) : imports name -> import_settles name.
Proof. unfold imports, import_settles. intros -> e H. discriminate H. Qed.

Lemma import_error_settles (name : string) (e : Py.Exception) :
  import_module name = inl e -> is_ImportError e = true -> import_settles name.
Proof.
  unfold import_settles. intros -> He e' H. injection H as <-. exact He.
Qed.

Lemma import_raise_unsettled (name : string) (e : Py.Exception) :
  import_module name = inl e -> is_ImportError e = false -> ~ import_settles name.
Proof.
  unfold import_settles. intros Himp He H. specialize (H e Himp). congruence.
Qed.

Lemma import_error_not_imports (name : string) (e : Py.Exception) :
  import_module name = inl e -> ~ imports name.
Proof. unfold imports. intros -> H. discriminate H. Qed.

(** The checks print none of the summary's lines.  They return exactly when
    nothing raises past the script, with [all_ok] set exactly when the
    setup is ready and [model_exists] telling whether the weights exist. *)
Lemma spec_main_checks :
  script_spec main_checks verdict_free
    (fun r =>
       match r with
       | inr (all_ok, model_exists) =>
           model_exists = path_exists "models/best.pt"
           /\ (all_ok = true <-> setup_ready)
           /\ runs_to_end
       | inl e => ~ runs_to_end
       end).
Proof.
  unfold main_checks. do 14 step.
  eapply spec_bind with (v := true && path_exists "inference.py"
                              && path_exists "api.py"
                              && path_exists "test_api.py"
                              && path_exists "requirements.txt"
                              && path_exists "Dockerfile"
                              && path_exists "README.md"
                              && path_exists "models/best.pt").
  { destruct (path_exists "models/best.pt"); cbn [negb].
    - rewrite andb_true_r. apply spec_ret.
    - rewrite andb_false_r.
      eapply spec_bind; [apply spec_say; line_ok | apply spec_ret]. }
  do 2 step.
  eapply spec_bind_gen; [apply spec_check_directory_exists | |];
    [ intros found1 Hfound1 | intros e He Hrun;
                              exact (directory_check_raised _ _ He (proj1 Hrun)) ].
  apply directory_check_returned in Hfound1. destruct Hfound1 as [_ Hyolo].
  step.
  eapply spec_bind_gen; [apply spec_check_directory_exists | |];
    [ intros found Hfound
    | intros e He Hrun;
      exact (directory_check_raised _ _ He (proj1 (proj2 Hrun))) ].
  assert (Hlist : found = true -> exists names, listdir "yolo/test/images" = inr names).
  { destruct (path_exists "yolo/test/images" && path_isdir "yolo/test/images");
      [| intros ->; discriminate Hfound].
    destruct (listdir "yolo/test/images") as [e | names];
      [discriminate Hfound | intros _; exists names; reflexivity]. }
  apply directory_check_returned in Hfound. destruct Hfound as [_ Himages].
  eapply spec_bind with (v := tt).
  { destruct found; [| apply spec_ret].
    destruct (Hlist eq_refl) as (names & ->).
    eapply spec_bind; [apply spec_lift | cbn zeta].
    eapply spec_bind; [apply spec_say; line_ok |].
    destruct (5 <=? Py.len (filter is_image_name names));
      apply spec_say; line_ok. }
  clear Hlist found found1. do 2 step.
  set (core := true && path_exists "inference.py" && path_exists "api.py"
               && path_exists "test_api.py" && path_exists "requirements.txt"
               && path_exists "Dockerfile" && path_exists "README.md"
               && path_exists "models/best.pt").
  assert (Hcore : core = true <->
                  path_exists "inference.py" = true
                  /\ path_exists "api.py" = true
                  /\ path_exists "test_api.py" = true
                  /\ path_exists "requirements.txt" = true
                  /\ path_exists "Dockerfile" = true
                  /\ path_exists "README.md" = true
                  /\ path_exists "models/best.pt" = true).
  { unfold core. rewrite !andb_true_iff. tauto. }
  clearbody core.
  apply spec_bind_import; [intros Hu | intros eu Hu Hcu | intros eu Hu Hcu];
    [ | | intros Hrun; apply (import_raise_unsettled _ _ Hu Hcu), Hrun ].
  - pose proof (imports_settles _ Hu) as Su.
    apply spec_bind_import; [intros Hf | intros ef Hf Hcf | intros ef Hf Hcf];
      [ | | intros Hrun; apply (import_raise_unsettled _ _ Hf Hcf), Hrun ].
    + pose proof (imports_settles _ Hf) as Sf.
      apply spec_bind_import; [intros Hv | intros ev Hv Hcv | intros ev Hv Hcv];
        [ | | intros Hrun; apply (import_raise_unsettled _ _ Hv Hcv), Hrun ].
      * pose proof (imports_settles _ Hv) as Sv.
        eapply spec_weaken; [apply spec_ret|]. intros r ->.
        split; [reflexivity|]. split; [| repeat split; assumption].
        unfold setup_ready. rewrite Hcore. tauto.
      * pose proof (import_error_settles _ _ Hv Hcv) as Sv.
        pose proof (import_error_not_imports _ _ Hv) as Nv.
        eapply spec_weaken; [apply spec_ret|]. intros r ->.
        split; [reflexivity|]. split; [| repeat split; assumption].
        unfold setup_ready. split; [discriminate | tauto].
    + pose proof (import_error_settles _ _ Hf Hcf) as Sf.
      pose proof (import_error_not_imports _ _ Hf) as Nf.
      apply spec_bind_import; [intros Hv | intros ev Hv Hcv | intros ev Hv Hcv];
        [ pose proof (imports_settles _ Hv) as Sv
        | pose proof (import_error_settles _ _ Hv Hcv) as Sv
        | intros Hrun; apply (import_raise_unsettled _ _ Hv Hcv), Hrun ];
        (eapply spec_weaken; [apply spec_ret|]; intros r ->;
         split; [reflexivity|]; split; [| repeat split; assumption];
         unfold setup_ready; split; [discriminate | tauto]).
  - pose proof (import_error_settles _ _ Hu Hcu) as Su.
    pose proof (import_error_not_imports _ _ Hu) as Nu.
    apply spec_bind_import; [intros Hf | intros ef Hf Hcf | intros ef Hf Hcf];
      [ pose proof (imports_settles _ Hf) as Sf
      | pose proof (import_error_settles _ _ Hf Hcf) as Sf
      | intros Hrun; apply (import_raise_unsettled _ _ Hf Hcf), Hrun ];
      (apply spec_bind_import; [intros Hv | intros ev Hv Hcv | intros ev Hv Hcv];
       [ pose proof (imports_settles _ Hv) as Sv
       | pose proof (import_error_settles _ _ Hv Hcv) as Sv
       | intros Hrun; apply (import_raise_unsettled _ _ Hv Hcv), Hrun ];
       (eapply spec_weaken; [apply spec_ret|]; intros r ->;
        split; [reflexivity|]; split; [| repeat split; assumption];
        unfold setup_ready; split; [discriminate | tauto])).
Qed.

(** The outcome and the lines of one run, and which of the summary's three
    lines they hold. *)
Lemma verify_setup_main_lines (out : list string) :
  exists lines,
    snd (verify_setup_main out) = out ++ lines
    /\ (fst (verify_setup_main out) = inr tt <-> runs_to_end)
    /\ (In "[SUCCESS] All components are ready!" lines
        <-> runs_to_end /\ setup_ready)
    /\ (In "[ACTION REQUIRED] Some components are missing." lines
        <-> runs_to_end /\ ~ setup_ready)
    /\ (In "  - Copy model weights to models/best.pt" lines
        <-> fst (verify_setup_main out) = inr tt
            /\ path_exists "models/best.pt" = false).
Proof.
  destruct (spec_main_checks out) as (l1 & Hout1 & HP1 & Hr1).
  assert (Hfree : forall line, In line l1 -> verdict_free line)
    by (apply Forall_forall; exact HP1).
  unfold verify_setup_main. cbn [bind Monad_Handler].
  destruct (main_checks out) as [[e | [all_ok model_exists]] out1];
    cbn [fst snd] in *; subst out1.
  - exists l1. split; [reflexivity|]. split; [| split; [| split]]; split.
    + intros H. discriminate H.
    + intros H. contradiction.
    + intros H. destruct (Hfree _ H) as (? & ? & ?). contradiction.
    + intros [H _]. contradiction.
    + intros H. destruct (Hfree _ H) as (? & ? & ?). contradiction.
    + intros [H _]. contradiction.
    + intros H. destruct (Hfree _ H) as (? & ? & ?). contradiction.
    + intros [H _]. discriminate H.
  - destruct Hr1 as (-> & Hready & Hrun).
    assert (Hweights : setup_ready -> path_exists "models/best.pt" = true)
      by (intros H; apply H).
    unfold main_summary, say. cbn [bind Monad_Handler ret].
    destruct all_ok; destruct (path_exists "models/best.pt") eqn:Hw;
      cbn [andb negb bind Monad_Handler ret fst snd];
      rewrite <- !app_assoc; cbn [app].
    + assert (Hr : setup_ready) by (apply Hready; reflexivity).
      eexists. split; [reflexivity|]. split; [| split; [| split]]; split.
      * intros _. exact Hrun.
      * intros _. reflexivity.
      * intros _. split; [exact Hrun | exact Hr].
      * intros _. apply in_app_iff. right.
        cbn [In]. repeat (first [left; reflexivity | right]).
      * intros H. apply in_app_iff in H. destruct H as [H | H].
        -- destruct (Hfree _ H) as (? & ? & ?). contradiction.
        -- cbn [In] in H. cbv in H. intuition discriminate.
      * intros [_ H]. contradiction.
      * intros H. apply in_app_iff in H. destruct H as [H | H].
        -- destruct (Hfree _ H) as (? & ? & ?). contradiction.
        -- cbn [In] in H. cbv in H. intuition discriminate.
      * intros [_ H]. discriminate H.
    + exfalso. assert (Hr : setup_ready) by (apply Hready; reflexivity).
      apply Hweights in Hr. discriminate Hr.
    + assert (Hr : ~ setup_ready) by (intros H; apply Hready in H; discriminate H).
      eexists. split; [reflexivity|]. split; [| split; [| split]]; split.
      * intros _. exact Hrun.
      * intros _. reflexivity.
      * intros H. apply in_app_iff in H. destruct H as [H | H].
        -- destruct (Hfree _ H) as (? & ? & ?). contradiction.
        -- cbn [In] in H. cbv in H. intuition discriminate.
      * intros [_ H]. contradiction.
      * intros _. split; [exact Hrun | exact Hr].
      * intros _. apply in_app_iff. right.
        cbn [In]. repeat (first [left; reflexivity | right]).
      * intros H. apply in_app_iff in H. destruct H as [H | H].
        -- destruct (Hfree _ H) as (? & ? & ?). contradiction.
        -- cbn [In] in H. cbv in H. intuition discriminate.
      * intros [_ H]. discriminate H.
    + assert (Hr : ~ setup_ready) by (intros H; apply Hready in H; discriminate H).
      eexists. split; [reflexivity|]. split; [| split; [| split]]; split.
      * intros _. exact Hrun.
      * intros _. reflexivity.
      * intros H. apply in_app_iff in H. destruct H as [H | H].
        -- destruct (Hfree _ H) as (? & ? & ?). contradiction.
        -- cbn [In] in H. cbv in H. intuition discriminate.
      * intros [_ H]. contradiction.
      * intros _. split; [exact Hrun | exact Hr].
      * intros _. apply in_app_iff. right.
        cbn [In]. repeat (first [left; reflexivity | right]).
      * intros _. split; reflexivity.
      * intros _. apply in_app_iff. right.
        cbn [In]. repeat (first [left; reflexivity | right]).
Qed.


(** X11. The summary's hint "  - Copy model weights to models/best.pt" is
    printed exactly when the run reaches its end and the weights are
    missing. *)
Theorem verify_setup_weights_hint (out : list string) :
  exists lines,
    snd (verify_setup_main out) = out ++ lines
    /\ (In "  - Copy model weights to models/best.pt" lines
        <-> fst (verify_setup_main out) = inr tt
            /\ path_exists "models/best.pt" = false).
Proof.
  destruct (verify_setup_main_lines out) as (lines & Hout & _ & _ & _ & Hh).
  exists lines. split; [exact Hout | exact Hh].
Qed.

End VerifySetupProperties.

(** ** The test scripts: picking the images and summing up *)

Lemma counts_get_set_same (d : list (string * Z)) (k : string) (v dflt : Z) :
  counts_get (counts_set d k v) k dflt = v.
Proof.
  induction d as [| [k' v'] d IH]; cbn [counts_set counts_get].
  - rewrite String.eqb_refl. reflexivity.
  - destruct (String.eqb k' k) eqn:Hk; cbn [counts_get]; rewrite Hk;
      [reflexivity | exact IH].
Qed.

Lemma counts_get_set_other (d : list (string * Z)) (k k' : string) (v dflt : Z) :
  k <> k' ->
  counts_get (counts_set d k v) k' dflt = counts_get d k' dflt.
Proof.
  intros Hne. induction d as [| [k0 v0] d IH]; cbn [counts_set counts_get].
  - destruct (String.eqb_spec k k'); [contradiction | reflexivity].
  - destruct (String.eqb_spec k0 k) as [-> | Hk0]; cbn [counts_get].
    + destruct (String.eqb_spec k k'); [contradiction | reflexivity].
    + destruct (String.eqb k0 k'); [reflexivity | exact IH].
Qed.

(** Setting a key adds it when it is new and keeps the keys otherwise. *)
Lemma counts_set_keys (d : list (string * Z)) (k : string) (v : Z) :
  map fst (counts_set d k v)
  = if existsb (String.eqb k) (map fst d) then map fst d else map fst d ++ [k].
Proof.
  induction d as [| [k0 v0] d IH]; cbn [counts_set map fst existsb app];
    [reflexivity|].
  rewrite (String.eqb_sym k k0).
  destruct (String.eqb_spec k0 k) as [-> | Hk0]; cbn [map fst orb];
    [reflexivity|].
  rewrite IH. destruct (existsb (String.eqb k) (map fst d)); reflexivity.
Qed.

Lemma counts_set_NoDup (d : list (string * Z)) (k : string) (v : Z) :
  NoDup (map fst d) -> NoDup (map fst (counts_set d k v)).
Proof.
  intros Hd. rewrite counts_set_keys.
  destruct (existsb (String.eqb k) (map fst d)) eqn:Hin; [exact Hd|].
  apply NoDup_app; [exact Hd | repeat constructor; intros [] | ].
  intros x Hx [Hk | []]. subst x.
  assert (Hex : existsb (String.eqb k) (map fst d) = true).
  { apply existsb_exists. exists k. split; [exact Hx | apply String.eqb_refl]. }
  congruence.
Qed.

Lemma fold_add_from (l : list Z) (a : Z) :
  fold_left Z.add l a = a + fold_left Z.add l 0.
Proof.
  revert a. induction l as [| x l IH]; intros a; cbn [fold_left]; [lia|].
  rewrite (IH (a + x)), (IH (0 + x)). lia.
Qed.

Lemma sum_ints_cons (a : Z) (l : list Z) : sum_ints (a :: l) = a + sum_ints l.
Proof. unfold sum_ints. cbn [fold_left]. rewrite fold_add_from. lia. Qed.

Lemma sum_ints_app (l l' : list Z) : sum_ints (l ++ l') = sum_ints l + sum_ints l'.
Proof.
  induction l as [| a l IH]; [reflexivity|].
  cbn [app]. rewrite !sum_ints_cons, IH. lia.
Qed.

(** Counting one more for a key adds one to the sum of the counts. *)
Lemma sum_counts_set (d : list (string * Z)) (k : string) :
  sum_ints (map snd (counts_set d k (counts_get d k 0 + 1)))
  = sum_ints (map snd d) + 1.
Proof.
  induction d as [| [k0 v0] d IH]; cbn [counts_set counts_get map snd];
    [reflexivity|].
  destruct (String.eqb k0 k); cbn [map snd]; rewrite !sum_ints_cons; lia.
Qed.

(** What the inner loop does to the pair it works on. *)
Lemma fold_tally_detection (ds : list Detection)
      (acc : list (string * Z) * list float) :
  let acc' := fold_left tally_detection ds acc in
  (forall k, counts_get (fst acc') k 0
             = counts_get (fst acc) k 0
               + Z.of_nat (count_occ string_dec (map class_name ds) k))
  /\ snd acc' = snd acc ++ map confidence ds
  /\ (NoDup (map fst (fst acc)) -> NoDup (map fst (fst acc')))
  /\ sum_ints (map snd (fst acc'))
     = sum_ints (map snd (fst acc)) + Py.len ds.
Proof.
  revert acc. induction ds as [| d ds IH]; intros [counts scores]; cbn zeta.
  - cbn [fold_left fst snd map count_occ]. unfold Py.len. cbn [List.length].
    repeat split; trivial; try lia. rewrite app_nil_r; reflexivity.
  - cbn [fold_left]. unfold tally_detection at 2 4 6 8. cbn [fst snd].
    specialize (IH (counts_set counts (class_name d)
                               (counts_get counts (class_name d) 0 + 1),
                    scores ++ [confidence d])).
    cbn zeta in IH. cbn [fst snd] in IH.
    destruct IH as (Hget & Hscores & Hnodup & Hsum).
    repeat split.
    + intros k. rewrite Hget. cbn [map count_occ].
      destruct (string_dec (class_name d) k) as [-> | Hne].
      * rewrite counts_get_set_same. lia.
      * rewrite counts_get_set_other by exact Hne. lia.
    + rewrite Hscores, <- app_assoc. reflexivity.
    + intros Hd. apply Hnodup, counts_set_NoDup, Hd.
    + rewrite Hsum, sum_counts_set. unfold Py.len. cbn [List.length]. lia.
Qed.

Lemma tally_flat (test_results : list TestResult)
      (acc : list (string * Z) * list float) :
  fold_left (fun acc result => fold_left tally_detection (tr_detections result) acc)
            test_results acc
  = fold_left tally_detection (flat_map tr_detections test_results) acc.
Proof.
  revert acc. induction test_results as [| r rs IH]; intros acc; [reflexivity|].
  cbn [fold_left flat_map]. rewrite fold_left_app. apply IH.
Qed.

(** X12. The per-class summary counts what it was given: after the two
    loops, [class_counts.get(k, 0)] is the number of detections of class [k]
    in all the test results, for every [k]; no class is listed twice, and
    [confidence_scores] holds the scores of the detections in the order the
    results list them. *)
Theorem class_counts_count (test_results : list TestResult) (k : string) :
  let all := flat_map tr_detections test_results in
  counts_get (fst (tally test_results)) k 0
    = Z.of_nat (count_occ string_dec (map class_name all) k)
  /\ NoDup (map fst (fst (tally test_results)))
  /\ snd (tally test_results) = map confidence all.
Proof.
  cbn zeta. unfold tally. rewrite tally_flat.
  destruct (fold_tally_detection (flat_map tr_detections test_results) ([], []))
    as (Hget & Hscores & Hnodup & _).
  cbn zeta in *. cbn [fst snd] in *.
  split; [rewrite Hget; reflexivity|].
  split; [apply Hnodup; constructor | exact Hscores].
Qed.

(** X13. When every test result carries the count its response came with,
    the length of its detections, the three totals of the summary agree: the
    "Total detections" of line 207 is the number of confidence scores
    collected and the sum of the per-class counts. *)
Theorem summary_totals_agree (test_results : list TestResult) :
  (forall r, In r test_results ->
             tr_num_detections r = Py.len (tr_detections r)) ->
  total_detections test_results = Py.len (snd (tally test_results))
  /\ total_detections test_results
     = sum_ints (map snd (fst (tally test_results))).
Proof.
  intros Hcount.
  assert (Htotal : total_detections test_results
                   = Py.len (flat_map tr_detections test_results)).
  { unfold total_detections.
    induction test_results as [| r rs IH]; [reflexivity|].
    cbn [map flat_map]. rewrite sum_ints_cons, IH.
    - rewrite (Hcount r) by (left; reflexivity).
      unfold Py.len. rewrite length_app. lia.
    - intros r' Hr'. apply Hcount. right; exact Hr'. }
  unfold tally. rewrite tally_flat.
  destruct (fold_tally_detection (flat_map tr_detections test_results) ([], []))
    as (_ & Hscores & _ & Hsum).
  cbn zeta in *. cbn [fst snd] in *.
  rewrite Htotal. split.
  - rewrite Hscores. unfold Py.len. cbn [app]. rewrite length_map. reflexivity.
  - rewrite Hsum. reflexivity.
Qed.

Lemma slice_to_all {A : Type} (l : list A) (n : Z) :
  Py.len l <= n -> slice_to l n = l.
Proof.
  unfold slice_to, Py.len. intros Hn.
  destruct (n <? 0) eqn:Hneg; [apply Z.ltb_lt in Hneg; lia|].
  apply firstn_all2. lia.
Qed.

(** X14. The cap on the images [main] of test_api.py sends is no cap:
    [test_images[:max(5, len(test_images))]] is the whole list, so every
    image found is tested, however many there are, and fewer than five when
    fewer exist. *)
Theorem images_to_test_is_all (test_images : list string) :
  images_to_test test_images = test_images.
Proof.
  unfold images_to_test. apply slice_to_all. apply Z.le_max_r.
Qed.

(** ** Which class ids the extraction accepts *)

Lemma to_detection_ok_iff (row : BoxRow) :
  (exists d, to_detection row = inr d) <-> -5 <= row_cls row < 5.
Proof.
  split.
  - intros (d & Hd).
    destruct (Z_lt_dec (row_cls row) (-5)) as [H | H];
      [rewrite to_detection_raises in Hd by lia; discriminate Hd|].
    destruct (Z_le_dec 5 (row_cls row)) as [H' | H'];
      [rewrite to_detection_raises in Hd by lia; discriminate Hd|].
    lia.
  - intros Hc. unfold to_detection.
    destruct (getitem_class_names_ok _ Hc) as (name & -> & _).
    eexists. reflexivity.
Qed.

Lemma to_detection_label (row : BoxRow) (d : Detection) :
  to_detection row = inr d ->
  nth_error class_names (Z.to_nat (row_cls row mod 5)) = Some (class_name d).
Proof.
  intros Hd.
  assert (Hc : -5 <= row_cls row < 5)
    by (apply to_detection_ok_iff; exists d; exact Hd).
  unfold to_detection in Hd.
  destruct (getitem_class_names_ok _ Hc) as (name & Hname & Hnth).
  rewrite Hname in Hd. cbn [bind Monad_raises ret] in Hd.
  injection Hd as <-. exact Hnth.
Qed.

(** X19. The extraction of api.py returns a list exactly when every row's
    class id lies in -5 .. 4, the indices Python accepts for the five
    labels; the label of a record is then [class_names] at the id taken
    modulo 5, so the ids -5 .. -1 name the same labels as 0 .. 4. *)
Theorem extraction_accepts_ids (result : Result) :
  ((exists ds, extract_detections result = inr ds)
   <-> Forall (fun row => -5 <= row_cls row < 5) (rows result))
  /\ (forall ds, extract_detections result = inr ds ->
        Forall2 (fun row d =>
                   nth_error class_names (Z.to_nat (row_cls row mod 5))
                   = Some (class_name d))
                (rows result) ds).
Proof.
  rewrite extract_detections_rows. generalize (rows result). intros l. split.
  - induction l as [| row l IH]; cbn [map_raise bind Monad_raises ret].
    + split; [intros _; constructor | intros _; eexists; reflexivity].
    + split.
      * intros (ds & Hds).
        destruct (to_detection row) as [e | d] eqn:Hrow; [discriminate Hds|].
        destruct (map_raise to_detection l) as [e | ds'] eqn:Hl; [discriminate Hds|].
        constructor.
        -- apply to_detection_ok_iff. exists d. exact Hrow.
        -- apply IH. exists ds'. reflexivity.
      * intros Hall. inversion Hall as [| row' l' Hrow Hrest]; subst.
        apply to_detection_ok_iff in Hrow. destruct Hrow as (d & ->).
        apply IH in Hrest. destruct Hrest as (ds' & ->).
        eexists. reflexivity.
  - intros ds Hds. apply map_raise_Forall2 in Hds.
    induction Hds as [| row d l ds Hrow Hrest IH]; constructor;
      [exact (to_detection_label _ _ Hrow) | exact IH].
Qed.

(** ** Which file names count as images *)

Lemma length_append (a b : string) :
  String.length (String.append a b) = (String.length a + String.length b)%nat.
Proof. induction a as [| c a IH]; cbn; [reflexivity | rewrite IH; reflexivity]. Qed.

Lemma substring_whole (s : string) : String.substring 0 (String.length s) s = s.
Proof. induction s as [| c s IH]; cbn; [reflexivity | rewrite IH; reflexivity]. Qed.

Lemma substring_after (a b : string) :
  String.substring (String.length a) (String.length b) (String.append a b) = b.
Proof. induction a as [| c a IH]; cbn; [apply substring_whole | exact IH]. Qed.

(** A string cut after its first [k] characters. *)
Lemma string_cut (s : string) (k : nat) :
  (k <= String.length s)%nat ->
  exists a b, s = String.append a b /\ String.length a = k.
Proof.
  revert k. induction s as [| c s IH]; intros k Hk.
  - exists "", "". cbn in *. split; [reflexivity | lia].
  - destruct k as [| k].
    + exists "", (String c s). split; reflexivity.
    + destruct (IH k) as (a & b & -> & Hlen); [cbn in Hk; lia|].
      exists (String c a), b. cbn. split; [reflexivity | rewrite Hlen; reflexivity].
Qed.

Lemma append_inj (a a' b b' : string) :
  String.append a b = String.append a' b' ->
  String.length a = String.length a' ->
  a = a' /\ b = b'.
Proof.
  revert a'. induction a as [| c a IH]; intros [| c' a'] Heq Hlen;
    cbn in *; try discriminate.
  - split; [reflexivity | exact Heq].
  - injection Heq as -> Heq. injection Hlen as Hlen.
    destruct (IH a' Heq Hlen) as [-> ->]. split; reflexivity.
Qed.

Lemma endswith_iff (s suffix : string) :
  endswith s suffix = true <-> exists stem, s = String.append stem suffix.
Proof.
  unfold endswith. rewrite andb_true_iff, Nat.leb_le, String.eqb_eq. split.
  - intros [Hlen Hsub].
    destruct (string_cut s (String.length s - String.length suffix))
      as (a & b & -> & Ha); [lia|].
    rewrite length_append in *.
    assert (Hb : String.length b = String.length suffix) by lia.
    rewrite <- Ha, <- Hb, substring_after in Hsub. subst b.
    exists a. reflexivity.
  - intros (stem & ->). rewrite length_append. split; [lia|].
    replace (String.length stem + String.length suffix - String.length suffix)%nat
      with (String.length stem) by lia.
    apply substring_after.
Qed.

Lemma lower_append (a b : string) :
  lower (String.append a b) = String.append (lower a) (lower b).
Proof. induction a as [| c a IH]; cbn; [reflexivity | rewrite IH; reflexivity]. Qed.

Lemma lower_length (s : string) : String.length (lower s) = String.length s.
Proof. induction s as [| c s IH]; cbn; [reflexivity | rewrite IH; reflexivity]. Qed.

(** X20. The test that picks the images in verify_setup.py, inference.py,
    test_api.py and test_currency_image.py accepts a file name exactly when
    the name ends, letter case apart, in ".jpg", ".jpeg" or ".png": the name
    is some stem followed by an ending that lowercases to one of the three.
    Nothing else about the name matters, so ".JPG" alone is accepted and
    "photo.jpg.txt" is not. *)
Theorem is_image_name_iff (f : string) :
  is_image_name f = true
  <-> exists stem ending,
        f = String.append stem ending
        /\ In (lower ending) [".jpg"; ".jpeg"; ".png"].
Proof.
  unfold is_image_name, endswith_any. rewrite existsb_exists. split.
  - intros (suffix & Hin & Hends).
    apply endswith_iff in Hends. destruct Hends as (pre & Hpre).
    destruct (string_cut f (String.length pre)) as (a & b & -> & Ha).
    { rewrite <- (lower_length f), Hpre, length_append. lia. }
    rewrite lower_append in Hpre.
    destruct (append_inj _ _ _ _ Hpre) as [_ Hb];
      [rewrite lower_length; exact Ha|].
    exists a, b. split; [reflexivity | rewrite Hb; exact Hin].
  - intros (stem & ending & -> & Hin).
    exists (lower ending). split; [exact Hin|].
    apply endswith_iff. exists (lower stem). apply lower_append.
Qed.

(** The two names of the statement above. *)
Example is_image_name_examples :
  is_image_name ".JPG" = true /\ is_image_name "photo.jpg.txt" = false
  /\ is_image_name "note.Jpeg" = true /\ is_image_name "jpg" = false.
Proof. repeat split; reflexivity. Qed.

(** ** The further properties at concrete inputs, on the small host *)

#[local] Existing Instance Toy.collaborators.

(** Missing weights: the load raises and the loaded model stays. *)
Lemma load_model_outcome_witness :
  model (world (snd (load_model (F := ToyHost.bare) (K := ToyHost.constructor)
                                "models/best.pt" ToyHost.serving)))
  = Some tt.
Proof.
  apply (proj1 (load_model_outcome
                  (F := ToyHost.bare) (K := ToyHost.constructor)
                  "models/best.pt" ToyHost.serving _)
               (FileNotFoundError (weights_not_found "models/best.pt"))).
  reflexivity.
Defined.

Lemma startup_without_weights_witness :
  exists p',
    startup_event (F := ToyHost.bare) (K := ToyHost.constructor) ToyHost.fresh
      = (inr tt, p')
    /\ forall file c, status (fst (post_predict file c (world p'))) = 503.
Proof.
  destruct (startup_without_weights
              (F := ToyHost.bare) (K := ToyHost.constructor)
              ToyHost.fresh eq_refl eq_refl)
    as (p' & Hrun & _ & _ & H503 & _).
  exists p'. split; [exact Hrun | exact H503].
Defined.

(** Weights that exist and a constructor that cannot load them. *)
Lemma startup_raises_iff_witness :
  fst (startup_event (F := ToyHost.full) (K := ToyHost.broken_constructor)
                     ToyHost.fresh)
  = inl (Py.OtherException "RuntimeError" "invalid weights").
Proof.
  apply (proj2 (startup_raises_iff
                  (F := ToyHost.full) (K := ToyHost.broken_constructor)
                  ToyHost.fresh _)).
  repeat split.
Defined.

Lemma startup_with_weights_witness :
  exists p',
    startup_event (F := ToyHost.full) (K := ToyHost.constructor) ToyHost.fresh
      = (inr tt, p')
    /\ model (world p') = Some tt.
Proof.
  destruct (startup_with_weights
              (F := ToyHost.full) (K := ToyHost.constructor)
              ToyHost.fresh tt 0%nat eq_refl eq_refl)
    as (p' & Hrun & Hmodel & _).
  exists p'. split; [exact Hrun | exact Hmodel].
Defined.

(** The image "two.jpg" holds rows of class ids 0 and 4. *)
Lemma detector_agrees_with_api_witness :
  fst (TakaNoteDetector_predict
         (F := ToyHost.full) (K := ToyHost.constructor)
         ToyHost.detector "two.jpg" 0.25 ToyHost.shell)
  = inr (VDict [ ("image_path", VStr "two.jpg");
                 ("num_detections", VInt 2);
                 ("detections",
                   VList [ Detection_dict (ToyHost.note "100 tk");
                           Detection_dict (ToyHost.note "objects") ]) ]).
Proof.
  exact (detector_agrees_with_api
           (F := ToyHost.full) (K := ToyHost.constructor)
           "models/best.pt" "two.jpg" 0.25 ToyHost.shell _ ToyHost.shell
           ToyHost.detector
           [ {| boxes := Some [Toy.row_of Byte.x08; Toy.row_of Byte.x0c] |} ]
           {| boxes := Some [Toy.row_of Byte.x08; Toy.row_of Byte.x0c] |}
           1%nat eq_refl eq_refl eq_refl eq_refl).
Defined.

Lemma detector_result_shape_witness :
  exists d s',
    TakaNoteDetector_predict
      (F := ToyHost.full) (K := ToyHost.constructor)
      ToyHost.detector "two.jpg" 0.25 ToyHost.shell = (inr d, s')
    /\ subscript d "image_path" = Some (VStr "two.jpg").
Proof.
  eexists. eexists. split; [reflexivity|].
  eapply (proj1 (proj2 (detector_result_shape
                          (F := ToyHost.full) (K := ToyHost.constructor)
                          ToyHost.detector "two.jpg" 0.25 ToyHost.shell _ _ eq_refl))).
Defined.

(** The threshold 7.5 is passed on to the engine as it is. *)
Lemma detector_calls_engine_witness :
  sh_calls (snd (TakaNoteDetector_predict
                   (F := ToyHost.full) (K := ToyHost.constructor)
                   ToyHost.detector "two.jpg" 7.5 ToyHost.shell))
  = [("two.jpg", 7.5%float)].
Proof.
  apply (proj2 (detector_calls_engine
                  (F := ToyHost.full) (K := ToyHost.constructor)
                  ToyHost.detector "two.jpg" 7.5 ToyHost.shell)).
  reflexivity.
Defined.

(** The image "beyond.jpg" holds rows of class ids 0 and 5. *)
Lemma detector_class_id_beyond_labels_raises_witness :
  fst (TakaNoteDetector_predict
         (F := ToyHost.full) (K := ToyHost.constructor)
         ToyHost.detector "beyond.jpg" 0.25 ToyHost.shell)
  = inl (Py.IndexError "list index out of range").
Proof.
  eapply (detector_class_id_beyond_labels_raises
            (F := ToyHost.full) (K := ToyHost.constructor)
            "models/best.pt" "beyond.jpg" 0.25 ToyHost.shell _
            ToyHost.shell ToyHost.detector
           [ {| boxes := Some [Toy.row_of Byte.x08; Toy.row_of Byte.x0d] |} ]
           {| boxes := Some [Toy.row_of Byte.x08; Toy.row_of Byte.x0d] |}
           1%nat (Toy.row_of Byte.x0d)).
  - reflexivity.
  - reflexivity.
  - reflexivity.
  - reflexivity.
  - right; left; reflexivity.
  - right. cbn. lia.
Defined.


Lemma summary_totals_agree_witness :
  total_detections ToyHost.test_results = 3
  /\ total_detections ToyHost.test_results
     = Py.len (snd (tally ToyHost.test_results))
  /\ total_detections ToyHost.test_results
     = sum_ints (map snd (fst (tally ToyHost.test_results))).
Proof.
  split; [reflexivity|].
  apply (summary_totals_agree ToyHost.test_results).
  intros r [<- | [<- | []]]; reflexivity.
Defined.

Lemma loaders_agree_witness :
  match fst (load_model (F := ToyHost.full) (K := ToyHost.constructor)
                        "models/best.pt" ToyHost.fresh),
        fst (TakaNoteDetector_init (F := ToyHost.full) (K := ToyHost.constructor)
                                   "models/best.pt" ToyHost.shell) with
  | inl e, inl e' => e = e'
  | inr _, inr self =>
      model (world (snd (load_model (F := ToyHost.full) (K := ToyHost.constructor)
                                    "models/best.pt" ToyHost.fresh)))
      = Some (self_model self)
      /\ self_class_names self = class_names
  | _, _ => False
  end.
Proof.
  apply (loaders_agree (F := ToyHost.full) (K := ToyHost.constructor)
                       "models/best.pt" ToyHost.fresh ToyHost.shell).
  reflexivity.
Defined.

